(** * The receive ring of netsniff-ng (ring_rx.c)

    A shallow embedding of [ring_rx.c]: the layout calculator
    ([setup_rx_ring_layout]), the ring allocator with its degrade-and-retry
    loop ([create_rx_ring]), the set-up sequence ([ring_rx_setup]), teardown
    ([destroy_rx_ring]) and the statistics reporter ([sock_rx_net_stats]).

    C objects are modelled as follows.
    - [unsigned int] fields of the kernel structures are integers reduced
      modulo 2^32, [size_t], [unsigned long] and [uint64_t] values modulo 2^64
      (LP64, the data model of the 64-bit Linux ports).
    - The anonymous union of [struct ring] ([layout], [layout3], [raw]) is one
      record of seven words; [layout] is the view on its first four.
    - The process state the functions act on ([errno], the packet version
      negotiated on the socket, the calls issued to the kernel and the lines
      printed) is a [world], threaded through a state-and-exit monad.
    - What the kernel and the collaborators of other translation units
      answer is read from an environment [env]. *)

From Stdlib Require Import ZArith List String Bool Lia.
From Stdlib Require Import Floats.PrimFloat Floats.SpecFloat Floats.FloatOps.
From Stdlib Require Import Numbers.Cyclic.Int63.Uint63.
From Equations Require Import Equations.
Import ListNotations.
Local Open Scope Z_scope.

(** ** Machine integers *)

Definition wrap32 (z : Z) : Z := z mod 2 ^ 32.
Definition wrap64 (z : Z) : Z := z mod 2 ^ 64.

(** Conversion of an [unsigned int] to [int] (two's complement). *)
Definition to_int32 (z : Z) : Z :=
  let u := wrap32 z in if u <? 2 ^ 31 then u else u - 2 ^ 32.

(** ** Constants of the system headers *)

Definition ENOMEM : Z := 12.
Definition TPACKET_ALIGNMENT : Z := 16.
Definition TPACKET_V2 : Z := 1.
Definition TPACKET_V3 : Z := 2.

(** [sizeof(struct tpacket_req)], [sizeof(struct tpacket_req3)],
    [sizeof(struct tpacket_stats)] and [sizeof(struct tpacket_stats_v3)]. *)
Definition sizeof_tpacket_req : Z := 16.
Definition sizeof_tpacket_req3 : Z := 28.
Definition sizeof_tpacket_stats : Z := 8.
Definition sizeof_tpacket_stats_v3 : Z := 12.

(** ** The ring *)

(** The storage of the union: [struct tpacket_req3]; [struct tpacket_req]
    is its first four words. *)
Record tpacket_req3 : Type := mk_req {
  tp_block_size : Z;
  tp_block_nr : Z;
  tp_frame_size : Z;
  tp_frame_nr : Z;
  tp_retire_blk_tov : Z;
  tp_sizeof_priv : Z;
  tp_feature_req_word : Z
}.

Record ring : Type := mk_ring {
  frames : Z;      (* struct iovec *frames; 0 is NULL *)
  mm_space : Z;    (* uint8_t *mm_space *)
  mm_len : Z;      (* size_t mm_len *)
  raw : tpacket_req3
}.

(** [fmemset(&ring->layout, 0, sizeof(ring->layout))]: the first four words. *)
Definition zero_layout (q : tpacket_req3) : tpacket_req3 :=
  mk_req 0 0 0 0 (tp_retire_blk_tov q) (tp_sizeof_priv q) (tp_feature_req_word q).

(** [fmemset(ring, 0, sizeof( *ring))]. *)
Definition zero_ring : ring := mk_ring 0 0 0 (mk_req 0 0 0 0 0 0 0).

Definition set_raw (r : ring) (q : tpacket_req3) : ring :=
  mk_ring (frames r) (mm_space r) (mm_len r) q.
Definition set_mm_len (r : ring) (n : Z) : ring :=
  mk_ring (frames r) (mm_space r) n (raw r).
Definition set_mm_space (r : ring) (p : Z) : ring :=
  mk_ring (frames r) p (mm_len r) (raw r).
Definition set_frames (r : ring) (p : Z) : ring :=
  mk_ring p (mm_space r) (mm_len r) (raw r).

Definition set_block_frame_nr (q : tpacket_req3) (bn fn : Z) : tpacket_req3 :=
  mk_req (tp_block_size q) bn (tp_frame_size q) fn
         (tp_retire_blk_tov q) (tp_sizeof_priv q) (tp_feature_req_word q).

(** The words of the union, in memory order, and the first [len] bytes of
    them: what a system call given [&ring->raw] and a length gets to see. *)
Definition req_words (q : tpacket_req3) : list Z :=
  [tp_block_size q; tp_block_nr q; tp_frame_size q; tp_frame_nr q;
   tp_retire_blk_tov q; tp_sizeof_priv q; tp_feature_req_word q].

Definition raw_prefix (q : tpacket_req3) (len : Z) : list Z :=
  firstn (Z.to_nat (len / 4)) (req_words q).

(** ** Kernel answers, observable events *)

(** A system call returns 0, or -1 with [errno] set; a call that succeeds
    leaves [errno] as it was. *)
Inductive sys_reply : Type :=
| SysOk
| SysErr (e : Z).

(** The answer to [getsockopt(PACKET_STATISTICS)]. *)
Inductive stats_reply : Type :=
| StatsOk (packets drops : Z)
| StatsErr (e : Z).

(** The lines the program prints; the numbers are kept, not their layout. *)
Inductive out_line : Type :=
| LineRxV2 (bytes nframes frame_size : Z)  (* RX,V2: bytes/2^20 MiB, %u Frames, each %u Byte allocated *)
| LineRxV3 (bytes nblocks block_size : Z)  (* RX,V3: bytes/2^20 MiB, %u Blocks, each %u Byte allocated *)
| LineIncoming (incoming unread : Z)       (* packets incoming (.. unread on exit) *)
| LinePassed (n : Z)                       (* packets passed filter *)
| LineFailed (n : Z)                       (* packets failed filter (out of space) *)
| LineDroprate (percent : float).          (* %12.4lf%% packet droprate *)

Inductive event : Type :=
| EvSetVersion (v : Z)                  (* setsockopt(PACKET_VERSION) *)
| EvRxRing (words : list Z) (len : Z)   (* setsockopt(PACKET_RX_RING, words, len) *)
| EvMmap (len : Z)
| EvMunmap (addr len : Z)
| EvXfree (p : Z)
| EvFrameTable (num size : Z)
| EvBind (ifindex : Z) (tx_only : bool)
| EvPoll
| EvGetStats (slen : Z)                 (* getsockopt(PACKET_STATISTICS) *)
| EvPrint (l : out_line).

(** ** Environment *)

(** What lies outside [ring_rx.c].
    - [RUNTIME_PAGE_SIZE] (built_in.h): the page size of the system.
    - [HAVE_TPACKET3]: the build-time switch of the source.
    - [rx_ring_reply n words]: the kernel's answer to the [n]-th
      [PACKET_RX_RING] request of the process, which carried [words].
    - [stats_reply_of]: its answer to the statistics query.
    - [mmap_reply len]: the address [mmap] returns, or failure.
    - [ring_verify_layout_ok]: whether [ring_verify_layout] (ring.h) lets the
      layout pass; it is fatal otherwise.
    - [xfree_func p]: what [xfree(p)] (xmalloc.h) does once called:
      [None] if it terminates the process, [Some p'] if it returns, [p']
      being the value of the freed lvalue afterwards ([p] itself for a plain
      function, 0 for a macro that resets it).
    - [frames_addr]: the address of a freshly allocated frame table.
    - [bind_reply]: the kernel's answer to binding the socket. *)
Record env : Type := mk_env {
  RUNTIME_PAGE_SIZE : Z;
  HAVE_TPACKET3 : bool;
  rx_ring_reply : nat -> list Z -> sys_reply;
  stats_reply_of : stats_reply;
  mmap_reply : Z -> option Z;
  ring_verify_layout_ok : tpacket_req3 -> bool;
  xfree_func : Z -> option Z;
  frames_addr : Z;
  bind_reply : sys_reply
}.

(** ** Process state and the monad *)

Record world : Type := mk_world {
  errno : Z;
  pkt_version : Z;          (* PACKET_VERSION of the socket *)
  rx_ring_calls : nat;      (* PACKET_RX_RING requests issued so far *)
  trace : list event        (* oldest first *)
}.

Definition log (e : event) (w : world) : world :=
  mk_world (errno w) (pkt_version w) (rx_ring_calls w) (trace w ++ [e]).

(** How a computation stops short of returning. *)
Inductive stop : Type :=
| Panic (msg : string)   (* panic(): the process exits *)
| DivByZero.             (* integer division by zero: undefined, traps *)

Inductive result (A : Type) : Type :=
| Done (a : A) (w : world)
| Stop (s : stop) (w : world).
Arguments Done {A} a w.
Arguments Stop {A} s w.

Definition world_of {A} (x : result A) : world :=
  match x with Done _ w => w | Stop _ w => w end.

Definition M (A : Type) : Type := world -> result A.

Definition ret {A} (a : A) : M A := fun w => Done a w.
Definition bind {A B} (m : M A) (k : A -> M B) : M B :=
  fun w => match m w with
           | Done a w1 => k a w1
           | Stop s w1 => Stop s w1
           end.
Definition panic {A} (msg : string) : M A := fun w => Stop (Panic msg) w.
Definition emit (e : event) : M unit := fun w => Done tt (log e w).
Definition printf (l : out_line) : M unit := emit (EvPrint l).

Declare Scope ring_scope.
Delimit Scope ring_scope with ring.
Notation "x <- m ;; k" := (bind m (fun x => k))
  (at level 100, m at next level, right associativity) : ring_scope.
Notation "m ;;; k" := (bind m (fun _ => k))
  (at level 100, right associativity) : ring_scope.

(** Unsigned division; the divisor 0 traps. *)
Definition udiv (a b : Z) : M Z :=
  fun w => if b =? 0 then Stop DivByZero w else Done (a / b) w.

(** ** The program *)

Section RingRx.

Variable E : env.

(** *** Socket options *)

(** Modelled from the spec: [get_sockopt_tpacket] (ring.h) is missing;
    "query_abi_variant(handle) -> version: reports which ABI generation is
    currently negotiated on the socket". *)
Definition get_sockopt_tpacket : M Z :=
  fun w => Done (pkt_version w) w.

(** Modelled from the spec: [set_sockopt_tpacket_v2] and
    [set_sockopt_tpacket_v3] (ring.h) are missing; "configure the socket for
    the chosen ring ABI generation". *)
Definition set_sockopt_tpacket (v : Z) : M unit :=
  fun w => Done tt (log (EvSetVersion v)
                        (mk_world (errno w) v (rx_ring_calls w) (trace w))).
Definition set_sockopt_tpacket_v2 : M unit := set_sockopt_tpacket TPACKET_V2.
Definition set_sockopt_tpacket_v3 : M unit := set_sockopt_tpacket TPACKET_V3.

Definition is_tpacket_v3 : M bool :=
  if HAVE_TPACKET3 E
  then (v <- get_sockopt_tpacket ;; ret (v =? TPACKET_V3))%ring
  else ret false.

Definition get_ring_layout_size (v3 : bool) : Z :=
  if HAVE_TPACKET3 E
  then (if v3 then sizeof_tpacket_req3 else sizeof_tpacket_req)
  else sizeof_tpacket_req.

(** [setsockopt(sock, SOL_PACKET, PACKET_RX_RING, &q, len)]: the return
    value, and the world after the call. *)
Definition rx_ring_rc (q : tpacket_req3) (len : Z) (w : world) : Z :=
  match rx_ring_reply E (rx_ring_calls w) (raw_prefix q len) with
  | SysOk => 0
  | SysErr _ => -1
  end.

Definition rx_ring_world (q : tpacket_req3) (len : Z) (w : world) : world :=
  mk_world
    match rx_ring_reply E (rx_ring_calls w) (raw_prefix q len) with
    | SysOk => errno w
    | SysErr e => e
    end
    (pkt_version w)
    (S (rx_ring_calls w))
    (trace w ++ [EvRxRing (raw_prefix q len) len]).

Definition setsockopt_rx_ring (q : tpacket_req3) (len : Z) : M Z :=
  fun w => Done (rx_ring_rc q len w) (rx_ring_world q len w).

(** [munmap]; the caller ignores what it returns. *)
Definition munmap (addr len : Z) : M unit := emit (EvMunmap addr len).

(** [xfree(p)], yielding the value of the lvalue [p] afterwards. *)
Definition xfree (p : Z) : M Z :=
  fun w => match xfree_func E p with
           | Some p' => Done p' (log (EvXfree p) w)
           | None => Stop (Panic "xfree") (log (EvXfree p) w)
           end.

(** *** destroy_rx_ring *)

Definition destroy_rx_ring (r : ring) : M ring :=
  (v3 <- is_tpacket_v3 ;;
   munmap (mm_space r) (mm_len r) ;;;
   let r1 := set_mm_len r 0 in
   p <- xfree (frames r1) ;;
   let r2 := set_frames r1 p in
   if v3 : bool then ret r2
   else
     let r3 := set_raw r2 (zero_layout (raw r2)) in
     rc <- setsockopt_rx_ring (raw r3) sizeof_tpacket_req ;;
     if rc =? 0 then ret r3
     else panic "Cannot destroy the RX_RING: %s!")%ring.

(** *** setup_rx_ring_layout *)

(** [ring_verify_layout] (ring.h), fatal when the layout does not pass. *)
Definition ring_verify_layout (r : ring) : M unit :=
  if ring_verify_layout_ok E (raw r) then ret tt
  else panic "ring_verify_layout".

Definition setup_rx_ring_layout (r : ring) (size : Z) (jumbo_support v3 : bool)
  : M ring :=
  (let q0 := zero_layout (raw r) in
   let block_size :=
     wrap32 (if jumbo_support
             then Z.shiftl (RUNTIME_PAGE_SIZE E) 4
             else Z.shiftl (RUNTIME_PAGE_SIZE E) 2) in
   let frame_size :=
     wrap32 (if jumbo_support
             then Z.shiftl TPACKET_ALIGNMENT 12
             else Z.shiftl TPACKET_ALIGNMENT 7) in
   nblocks <- udiv size block_size ;;
   let block_nr := wrap32 nblocks in
   per_block <- udiv block_size frame_size ;;
   let frame_nr := wrap32 (per_block * block_nr) in
   let q1 := mk_req block_size block_nr frame_size frame_nr
                    (tp_retire_blk_tov q0) (tp_sizeof_priv q0)
                    (tp_feature_req_word q0) in
   let q2 := if v3
             then mk_req block_size block_nr frame_size frame_nr 100 0 0
             else q1 in
   (if v3 then set_sockopt_tpacket_v3 else set_sockopt_tpacket_v2) ;;;
   let r1 := set_raw r q2 in
   ring_verify_layout r1 ;;;
   ret r1)%ring.

(** *** create_rx_ring *)

(** The test of line 114, made after the call has returned. *)
Definition retry_wanted (w : world) (q : tpacket_req3) : bool :=
  (errno w =? ENOMEM) && (1 <? tp_block_nr q).

(** Lines 115 to 118: halve the block count, recompute the frame count. *)
Definition shrink_layout (q : tpacket_req3) : option tpacket_req3 :=
  let block_nr := Z.shiftr (tp_block_nr q) 1 in
  if tp_frame_size q =? 0 then None
  else Some (set_block_frame_nr q block_nr
               (wrap32 (tp_block_size q / tp_frame_size q * block_nr))).

(** The loop between the label [retry] and the [goto]: it ends with the
    return value of the last call and the layout that call asked for. *)
Equations? create_rx_ring_retry (layout_size : Z) (r : ring) (w : world)
  : result (Z * ring) by wf (Z.to_nat (tp_block_nr (raw r))) lt :=
  create_rx_ring_retry layout_size r w
    with Logic.inspect (retry_wanted (rx_ring_world (raw r) layout_size w) (raw r)) := {
    | exist _ true Hretry with Logic.inspect (shrink_layout (raw r)) := {
      | exist _ (Some q) Hq =>
          create_rx_ring_retry layout_size (set_raw r q)
                               (rx_ring_world (raw r) layout_size w)
      | exist _ None _ =>
          Stop DivByZero (rx_ring_world (raw r) layout_size w) };
    | exist _ false _ =>
        Done (rx_ring_rc (raw r) layout_size w, r)
             (rx_ring_world (raw r) layout_size w) }.
Proof.
  unfold retry_wanted in Hretry. apply andb_true_iff in Hretry.
  destruct Hretry as [_ Hgt]. apply Z.ltb_lt in Hgt.
  unfold shrink_layout in Hq.
  destruct (tp_frame_size (raw r) =? 0); [discriminate|].
  injection Hq as <-. simpl.
  rewrite Z.shiftr_div_pow2 by lia. change (2 ^ 1) with 2.
  apply Z2Nat.inj_lt; try lia.
  - apply Z.div_pos; lia.
  - apply Z.div_lt; lia.
Qed.

Definition create_rx_ring (r : ring) (verbose : bool) : M ring :=
  (v3 <- is_tpacket_v3 ;;
   let layout_size := get_ring_layout_size v3 in
   x <- create_rx_ring_retry layout_size r ;;
   let '(rc, r1) := x in
   if rc <? 0 then panic "Cannot allocate RX_RING!"
   else
     let r2 := set_mm_len r1
                 (wrap64 (tp_block_size (raw r1) * tp_block_nr (raw r1))) in
     (if verbose
      then if negb v3
           then printf (LineRxV2 (mm_len r2) (tp_frame_nr (raw r2))
                                 (tp_frame_size (raw r2)))
           else printf (LineRxV3 (mm_len r2) (tp_block_nr (raw r2))
                                 (tp_block_size (raw r2)))
      else ret tt) ;;;
     ret r2)%ring.

(** *** Collaborators of ring.c *)

(** Modelled from the spec: [mmap_ring_generic] (ring.c) is missing;
    "map_region(handle, ring): maps block_size*block_count bytes associated
    with the kernel ring into ring.mapped_region; fails fatally on error". *)
Definition mmap_ring_generic (r : ring) : M ring :=
  let len := tp_block_size (raw r) * tp_block_nr (raw r) in
  (emit (EvMmap len) ;;;
   match mmap_reply E len with
   | Some addr => ret (set_mm_space r addr)
   | None => panic "Cannot mmap {TX,RX}_RING!"
   end)%ring.

(** Modelled from the spec: [alloc_ring_frames_generic] (ring.c) is missing;
    "build_frame_table(ring, count, unit_size): populates ring.frame_table
    with count addresses into ring.mapped_region, each unit_size apart". The
    table is a fresh allocation; the ring keeps the pointer to it. *)
Definition alloc_ring_frames_generic (r : ring) (num size : Z) : M ring :=
  (emit (EvFrameTable num size) ;;;
   ret (set_frames r (frames_addr E)))%ring.

(** Modelled from the spec: [bind_ring_generic] (ring.c) is missing;
    "bind_to_interface(handle, ring, interface_index, is_transmit=false):
    associates the ring with a network interface for receive traffic"; a
    bind failure is fatal (section 7 of the spec). *)
Definition bind_ring_generic (r : ring) (ifindex : Z) (tx_only : bool)
  : M unit :=
  (emit (EvBind ifindex tx_only) ;;;
   match bind_reply E with
   | SysOk => ret tt
   | SysErr _ => panic "Cannot bind {TX,RX}_RING!"
   end)%ring.

(** Modelled from the spec: [prepare_polling] is missing;
    "prepare_poll_descriptor(handle, descriptor): configures a
    poll/readiness descriptor for the capture socket". *)
Definition prepare_polling : M unit := emit EvPoll.

(** *** alloc_rx_ring_frames, ring_rx_setup *)

Definition alloc_rx_ring_frames (r : ring) : M ring :=
  (v3 <- is_tpacket_v3 ;;
   let num := to_int32 (if v3 : bool then tp_block_nr (raw r)
                        else tp_frame_nr (raw r)) in
   let size := if v3 then tp_block_size (raw r) else tp_frame_size (raw r) in
   alloc_ring_frames_generic r num size)%ring.

(** The ring passed in is overwritten with zeroes first, so only the other
    arguments matter. *)
Definition ring_rx_setup (size ifindex : Z) (v3 jumbo_support verbose : bool)
  : M ring :=
  (let r0 := zero_ring in
   r1 <- setup_rx_ring_layout r0 size jumbo_support v3 ;;
   r2 <- create_rx_ring r1 verbose ;;
   r3 <- mmap_ring_generic r2 ;;
   r4 <- alloc_rx_ring_frames r3 ;;
   bind_ring_generic r4 ifindex false ;;;
   prepare_polling ;;;
   ret r4)%ring.

(** *** sock_rx_net_stats *)

(** [getsockopt(sock, SOL_PACKET, PACKET_STATISTICS, &stats, &slen)] on a
    zeroed [stats]: the return value and the two counters read back from
    it, [unsigned int] both. *)
Definition getsockopt_stats (slen : Z) : M (Z * Z * Z) :=
  fun w =>
    match stats_reply_of E with
    | StatsOk p d => Done (0, wrap32 p, wrap32 d) (log (EvGetStats slen) w)
    | StatsErr e =>
        Done (-1, 0, 0)
             (log (EvGetStats slen)
                  (mk_world e (pkt_version w) (rx_ring_calls w) (trace w)))
    end.

(** Conversion of a [uint64_t] below 2^63 to [double]. *)
Definition double_of_u64 (z : Z) : float := PrimFloat.of_uint63 (Uint63.of_Z z).

(** [(1.0 * drops / packets) * 100.0] in binary64. *)
Definition droprate (drops packets : Z) : float :=
  PrimFloat.mul
    (PrimFloat.div (PrimFloat.mul 1%float (double_of_u64 drops))
                   (double_of_u64 packets))
    100%float.

Definition sock_rx_net_stats (seen : Z) : M unit :=
  (v3 <- is_tpacket_v3 ;;
   let slen := if v3 : bool then sizeof_tpacket_stats_v3
               else sizeof_tpacket_stats in
   x <- getsockopt_stats slen ;;
   let '(rc, tp_packets, tp_drops) := x in
   if -1 <? rc then
     let packets := wrap64 tp_packets in
     let drops := wrap64 tp_drops in
     printf (LineIncoming (if v3 then wrap64 seen else packets)
                          (if v3 then wrap64 (packets - wrap64 seen) else 0)) ;;;
     printf (LinePassed (wrap64 (packets - drops))) ;;;
     printf (LineFailed drops) ;;;
     if 0 <? tp_packets then printf (LineDroprate (droprate drops packets))
     else ret tt
   else ret tt)%ring.

End RingRx.

(** ** Reading a trace *)

(** The lines printed, oldest first. *)
Fixpoint printed (t : list event) : list out_line :=
  match t with
  | [] => []
  | EvPrint l :: t' => l :: printed t'
  | _ :: t' => printed t'
  end.

(** The number of bytes handed to [munmap]. *)
Fixpoint unmapped_bytes (t : list event) : Z :=
  match t with
  | [] => 0
  | EvMunmap _ len :: t' => len + unmapped_bytes t'
  | _ :: t' => unmapped_bytes t'
  end.

(** The pointers handed to [xfree], oldest first. *)
Fixpoint freed (t : list event) : list Z :=
  match t with
  | [] => []
  | EvXfree p :: t' => p :: freed t'
  | _ :: t' => freed t'
  end.

(** ** What [%.4lf] shows *)

(** [num / den] rounded to the nearest integer, ties to even. *)
Definition round_half_even (num den : Z) : Z :=
  let q := num / den in
  let r := num mod den in
  if 2 * r <? den then q
  else if den <? 2 * r then q + 1
  else if Z.even q then q else q + 1.

(** The decimal that [printf] shows for a finite, non-negative double under
    [%.4lf], counted in units of 10^-4: the exact binary value rounded to
    four places, ties to even. *)
Definition fixed4 (x : float) : option Z :=
  match Prim2SF x with
  | S754_zero _ => Some 0
  | S754_finite false m e =>
      Some (if 0 <=? e then Z.pos m * 2 ^ e * 10 ^ 4
            else round_half_even (Z.pos m * 10 ^ 4) (2 ^ (- e)))
  | _ => None
  end.

(** ** Derived notions *)

(** The value [is_tpacket_v3] computes in world [w]. *)
Definition tpacket_v3_active (E : env) (w : world) : bool :=
  HAVE_TPACKET3 E && (pkt_version w =? TPACKET_V3).

(** The sizes of lines 72 to 78. *)
Definition rx_block_size (E : env) (jumbo_support : bool) : Z :=
  wrap32 (if jumbo_support
          then Z.shiftl (RUNTIME_PAGE_SIZE E) 4
          else Z.shiftl (RUNTIME_PAGE_SIZE E) 2).

Definition rx_frame_size (jumbo_support : bool) : Z :=
  wrap32 (if jumbo_support
          then Z.shiftl TPACKET_ALIGNMENT 12
          else Z.shiftl TPACKET_ALIGNMENT 7).

(** The layout of lines 70 to 94, [old] being the union before the call. *)
Definition rx_layout (E : env) (old : tpacket_req3) (size : Z)
           (jumbo_support v3 : bool) : tpacket_req3 :=
  let block_size := rx_block_size E jumbo_support in
  let frame_size := rx_frame_size jumbo_support in
  let block_nr := wrap32 (size / block_size) in
  let frame_nr := wrap32 (block_size / frame_size * block_nr) in
  if v3 then mk_req block_size block_nr frame_size frame_nr 100 0 0
  else mk_req block_size block_nr frame_size frame_nr
              (tp_retire_blk_tov old) (tp_sizeof_priv old)
              (tp_feature_req_word old).

(** The world once the ABI has been selected on the socket (lines 96, 98). *)
Definition abi_selected (v3 : bool) (w : world) : world :=
  let v := if v3 then TPACKET_V3 else TPACKET_V2 in
  log (EvSetVersion v) (mk_world (errno w) v (rx_ring_calls w) (trace w)).

(** Page sizes of the Linux ports: multiples of 4096, far below 2^28. *)
Definition page_size_ok (p : Z) : Prop :=
  0 < p /\ (4096 | p) /\ 16 * p < 2 ^ 32.

(** The layout a halving leaves (lines 115 to 118). *)
Definition halved (q : tpacket_req3) : tpacket_req3 :=
  set_block_frame_nr q (Z.shiftr (tp_block_nr q) 1)
    (wrap32 (tp_block_size q / tp_frame_size q * Z.shiftr (tp_block_nr q) 1)).

(** What a returning loop leaves behind: [k] halvings took [k + 1] requests. *)
Record retry_post (r : ring) (w : world) (r' : ring) (w' : world) : Prop := {
  post_frames : frames r' = frames r;
  post_mm_space : mm_space r' = mm_space r;
  post_mm_len : mm_len r' = mm_len r;
  post_block_size : tp_block_size (raw r') = tp_block_size (raw r);
  post_frame_size : tp_frame_size (raw r') = tp_frame_size (raw r);
  post_halvings : exists k : nat,
      tp_block_nr (raw r') = Z.shiftr (tp_block_nr (raw r)) (Z.of_nat k) /\
      rx_ring_calls w' = (rx_ring_calls w + k + 1)%nat /\
      (k = 0%nat -> tp_frame_nr (raw r') = tp_frame_nr (raw r)) /\
      (k <> 0%nat ->
       tp_frame_nr (raw r') =
       wrap32 (tp_block_size (raw r') / tp_frame_size (raw r')
               * tp_block_nr (raw r')));
  post_at_least_one : 1 <= tp_block_nr (raw r) -> 1 <= tp_block_nr (raw r');
  post_exit : retry_wanted w' (raw r') = false;
  post_version : pkt_version w' = pkt_version w
}.

(** Tearing the ring down twice in a row. *)
Definition destroy_rx_ring_twice (E : env) (r : ring) : M ring :=
  (r1 <- destroy_rx_ring E r ;; destroy_rx_ring E r1)%ring.

(** What is asked of a second teardown: to return, to unmap nothing, and
    not to release the frame table of [r] once more. *)
Definition second_teardown_harmless (E : env) (r : ring) (w : world) : Prop :=
  forall r1 w1,
    destroy_rx_ring E r w = Done r1 w1 ->
    exists r2 w2 again,
      destroy_rx_ring E r1 w1 = Done r2 w2 /\
      unmapped_bytes (trace w2) = unmapped_bytes (trace w1) /\
      freed (trace w2) = freed (trace w1) ++ again /\
      ~ In (frames r) again.

(** ** A test bench *)

(** A system with 4 KiB pages and TPACKET_V3 built in, whose kernel answers
    the [n]-th ring request with [replies n]; [mmap], the layout check and
    the bind succeed. *)
Definition bench (replies : nat -> sys_reply) (stats : stats_reply)
           (xfree_model : Z -> option Z) : env :=
  mk_env 4096 true (fun n _ => replies n) stats (fun _ => Some 1048576)
         (fun _ => true) xfree_model 4198400 SysOk.

(** The kernel is out of memory at the first request only. *)
Definition enomem_once (n : nat) : sys_reply :=
  match n with O => SysErr ENOMEM | S _ => SysOk end.

Definition always_ok (n : nat) : sys_reply := SysOk.
Definition always_enomem (n : nat) : sys_reply := SysErr ENOMEM.

(** [xfree] as a plain function, which is all the spec's "Release
    frame_table" says: the table is released, the pointer variable keeps
    its value. *)
Definition xfree_plain (p : Z) : option Z := Some p.

(** [xfree] as a macro that refuses NULL and resets the pointer variable. *)
Definition xfree_resetting (p : Z) : option Z :=
  if p =? 0 then None else Some 0.

Definition fresh_world (version : Z) : world := mk_world 0 version 0 [].

(** A ring of eight blocks of 16 KiB, 64 frames of 2 KiB, not mapped yet. *)
Definition ring8 : ring := mk_ring 0 0 0 (mk_req 16384 8 2048 64 0 0 0).

(** A ring of two blocks that is mapped and has its frame table. *)
Definition mapped_ring : ring :=
  mk_ring 4198400 1048576 32768 (mk_req 16384 2 2048 16 0 0 0).

(** ** Further notions *)

(** Whether an event is a [PACKET_RX_RING] request. *)
Definition is_rx_ring_request (e : event) : bool :=
  match e with EvRxRing _ _ => true | _ => false end.

(** The ABI the ring allocator finds on the socket once the layout
    calculator has run with the flag [v3]. *)
Definition v3_in_use (E : env) (v3 : bool) : bool := HAVE_TPACKET3 E && v3.

(** The line [create_rx_ring] prints when it is verbose. *)
Definition rx_ring_line (v3 : bool) (r : ring) : out_line :=
  if negb v3
  then LineRxV2 (mm_len r) (tp_frame_nr (raw r)) (tp_frame_size (raw r))
  else LineRxV3 (mm_len r) (tp_block_nr (raw r)) (tp_block_size (raw r)).

(** The count and the unit size [alloc_rx_ring_frames] passes on. *)
Definition frame_table_shape (v3 : bool) (q : tpacket_req3) : Z * Z :=
  if v3 then (to_int32 (tp_block_nr q), tp_block_size q)
  else (to_int32 (tp_frame_nr q), tp_frame_size q).

(** Three kernels for the bench: one that grants every ring request, one
    that is out of memory at the first request only, and one that refuses
    every request with EPERM. *)
Definition quiet_bench : env := bench always_ok (StatsOk 0 0) xfree_plain.
Definition tight_bench : env := bench enomem_once (StatsOk 0 0) xfree_plain.
Definition EPERM : Z := 1.
Definition closed_bench : env :=
  bench (fun _ => SysErr EPERM) (StatsOk 0 0) xfree_plain.

(** A bench whose [mmap] refuses a length of 0, as the one of Linux does
    (EINVAL). *)
Definition linux_bench : env :=
  mk_env 4096 true (fun _ _ => SysOk) (StatsOk 0 0)
         (fun len => if len <=? 0 then None else Some 1048576)
         (fun _ => true) xfree_plain 4198400 SysOk.

(** ** Doubles against exact fractions *)

(** Whether the double [x] differs from the fraction [num / den] (where
    [0 <= num] and [0 < den]) by at most [num / den / 2^k]. A finite
    double is [m * 2^e] exactly, so the comparison
    [|m * 2^e - num / den| * 2^k <= num / den] is made on integers, both
    sides multiplied by [den] and, if [e < 0], by [2^-e]. *)
Definition near_fraction (k : Z) (x : float) (num den : Z) : bool :=
  match Prim2SF x with
  | S754_zero _ => num =? 0
  | S754_finite false m e =>
      let up := if 0 <=? e then 2 ^ e else 1 in
      let down := if 0 <=? e then 1 else 2 ^ (- e) in
      Z.abs (Z.pos m * up * den - num * down) * 2 ^ k <=? num * down
  | _ => false
  end.

(** The comparison of the drop rate with [100 * d / t] for all counters
    [d <= t] with [1 <= t <= n]. *)
Definition droprates_near (k : Z) (n : nat) : bool :=
  forallb
    (fun t =>
       forallb
         (fun d => near_fraction k (droprate (Z.of_nat d) (Z.of_nat t))
                                 (100 * Z.of_nat d) (Z.of_nat t))
         (seq 0 (S t)))
    (seq 1 n).

(** * Properties *)

(** ** Machine integers *)

Lemma wrap32_small z : 0 <= z < 2 ^ 32 -> wrap32 z = z.
Proof. intros. unfold wrap32. apply Z.mod_small. assumption. Qed.

Lemma wrap32_range z : 0 <= wrap32 z < 2 ^ 32.
Proof. unfold wrap32. apply Z.mod_pos_bound. lia. Qed.

Lemma wrap64_small z : 0 <= z < 2 ^ 64 -> wrap64 z = z.
Proof. intros. unfold wrap64. apply Z.mod_small. assumption. Qed.

Lemma shiftr1_bounds n : 1 < n -> 1 <= Z.shiftr n 1 < n.
Proof.
  intros. rewrite Z.shiftr_div_pow2 by lia. change (2 ^ 1) with 2.
  split; [apply Z.div_le_lower_bound; lia | apply Z.div_lt; lia].
Qed.

Lemma shiftr_range n k : 0 <= n < 2 ^ 32 -> 0 <= k -> 0 <= Z.shiftr n k < 2 ^ 32.
Proof.
  intros Hn Hk. rewrite Z.shiftr_div_pow2 by assumption.
  assert (0 < 2 ^ k) by (apply Z.pow_pos_nonneg; lia).
  split; [apply Z.div_pos; lia|].
  apply Z.le_lt_trans with n; [|lia].
  apply Z.div_le_upper_bound; nia.
Qed.

Section Properties.

Variable E : env.

(** ** Running the small pieces *)

Lemma is_tpacket_v3_run w :
  is_tpacket_v3 E w = Done (tpacket_v3_active E w) w.
Proof.
  unfold is_tpacket_v3, tpacket_v3_active.
  destruct (HAVE_TPACKET3 E); reflexivity.
Qed.

Lemma shrink_layout_Some q q' :
  shrink_layout q = Some q' -> tp_frame_size q <> 0 /\ q' = halved q.
Proof.
  unfold shrink_layout, halved.
  destruct (tp_frame_size q =? 0) eqn:Hf; [discriminate|].
  intros H. injection H as <-. apply Z.eqb_neq in Hf. auto.
Qed.

Lemma shrink_layout_halved q :
  tp_frame_size q <> 0 -> shrink_layout q = Some (halved q).
Proof.
  intros Hf. unfold shrink_layout, halved.
  apply Z.eqb_neq in Hf. rewrite Hf. reflexivity.
Qed.

Lemma retry_wanted_true w q :
  retry_wanted w q = true <-> errno w = ENOMEM /\ 1 < tp_block_nr q.
Proof.
  unfold retry_wanted. rewrite andb_true_iff, Z.eqb_eq, Z.ltb_lt. tauto.
Qed.

Lemma retry_wanted_false w q :
  retry_wanted w q = false <-> errno w <> ENOMEM \/ tp_block_nr q <= 1.
Proof.
  unfold retry_wanted. rewrite andb_false_iff, Z.eqb_neq, Z.ltb_ge. tauto.
Qed.

(** ** The retry loop *)

Ltac retry_cases :=
  repeat match goal with
         | H : retry_wanted _ _ = _ |- _ => rewrite H
         | H : shrink_layout _ = _ |- _ => rewrite H
         end.

(** One turn of the loop. *)
Lemma create_rx_ring_retry_step ls r w :
  create_rx_ring_retry E ls r w =
  let w1 := rx_ring_world E (raw r) ls w in
  if retry_wanted w1 (raw r) then
    match shrink_layout (raw r) with
    | Some q => create_rx_ring_retry E ls (set_raw r q) w1
    | None => Stop DivByZero w1
    end
  else Done (rx_ring_rc E (raw r) ls w, r) w1.
Proof.
  funelim (create_rx_ring_retry E ls r w); cbn zeta; retry_cases; reflexivity.
Qed.

Lemma shrink_layout_lt q q' :
  1 < tp_block_nr q -> shrink_layout q = Some q' ->
  (Z.to_nat (tp_block_nr q') < Z.to_nat (tp_block_nr q))%nat.
Proof.
  intros Hgt Hs. apply shrink_layout_Some in Hs. destruct Hs as [_ ->]. simpl.
  apply shiftr1_bounds in Hgt. lia.
Qed.

(** Induction along the retries. *)
Lemma create_rx_ring_retry_induction
      (ls : Z) (P : ring -> world -> result (Z * ring) -> Prop) :
  (forall r w,
      retry_wanted (rx_ring_world E (raw r) ls w) (raw r) = false ->
      P r w (Done (rx_ring_rc E (raw r) ls w, r) (rx_ring_world E (raw r) ls w))) ->
  (forall r w,
      retry_wanted (rx_ring_world E (raw r) ls w) (raw r) = true ->
      shrink_layout (raw r) = None ->
      P r w (Stop DivByZero (rx_ring_world E (raw r) ls w))) ->
  (forall r w x,
      retry_wanted (rx_ring_world E (raw r) ls w) (raw r) = true ->
      tp_frame_size (raw r) <> 0 ->
      P (set_raw r (halved (raw r))) (rx_ring_world E (raw r) ls w) x ->
      P r w x) ->
  forall r w, P r w (create_rx_ring_retry E ls r w).
Proof.
  intros Hexit Htrap Hloop r.
  remember (Z.to_nat (tp_block_nr (raw r))) as n eqn:Hn.
  revert r Hn. induction n as [n IH] using lt_wf_ind. intros r Hn w.
  rewrite create_rx_ring_retry_step. cbn zeta.
  destruct (retry_wanted _ _) eqn:Hw; [|apply Hexit; assumption].
  destruct (shrink_layout (raw r)) as [q|] eqn:Hs; [|apply Htrap; assumption].
  pose proof (shrink_layout_lt (raw r) q) as Hlt.
  apply shrink_layout_Some in Hs. destruct Hs as [Hfs ->].
  apply Hloop; try assumption.
  apply (IH (Z.to_nat (tp_block_nr (halved (raw r))))); [|reflexivity].
  subst n. apply Hlt; [|apply shrink_layout_halved; assumption].
  apply retry_wanted_true in Hw. tauto.
Qed.

Lemma create_rx_ring_retry_post ls r w rc r' w' :
  create_rx_ring_retry E ls r w = Done (rc, r') w' ->
  retry_post r w r' w'.
Proof.
  revert rc r' w'.
  apply (create_rx_ring_retry_induction ls
           (fun r w x =>
              forall rc r' w', x = Done (rc, r') w' -> retry_post r w r' w')).
  - intros r0 w0 Hw rc r' w' Hdone. injection Hdone as <- <- <-.
    constructor; auto.
    exists 0%nat. simpl. rewrite Z.shiftr_0_r.
    repeat split; auto; try lia; congruence.
  - discriminate.
  - intros r0 w0 x Hw Hfs IH rc r' w' Hdone.
    destruct (IH _ _ _ Hdone)
      as [F1 F2 F3 F4 F5 [k (K1 & K2 & K3 & K4)] F7 F8 F9].
    apply retry_wanted_true in Hw. destruct Hw as [_ Hgt].
    unfold halved in *. simpl in *.
    constructor; auto.
    + exists (S k). split; [|split; [|split]].
      * rewrite K1, Z.shiftr_shiftr by lia. f_equal. lia.
      * lia.
      * discriminate.
      * intros _. destruct k as [|k'].
        -- rewrite (K3 eq_refl), F4, F5, K1. simpl.
           rewrite Z.shiftr_0_r. reflexivity.
        -- apply K4. discriminate.
    + intros _. apply F7. apply shiftr1_bounds in Hgt. lia.
Qed.

(** The loop never fails to come to an end: it returns, or traps on a
    zero frame size. *)
Lemma create_rx_ring_retry_total ls r w :
  tp_frame_size (raw r) <> 0 ->
  exists rc r' w', create_rx_ring_retry E ls r w = Done (rc, r') w'.
Proof.
  apply (create_rx_ring_retry_induction ls
           (fun r w x => tp_frame_size (raw r) <> 0 ->
                         exists rc r' w', x = Done (rc, r') w')).
  - intros r0 w0 _ _. eauto.
  - intros r0 w0 _ Hs Hfs. unfold shrink_layout in Hs.
    apply Z.eqb_neq in Hfs. rewrite Hfs in Hs. discriminate.
  - intros r0 w0 x _ Hfs IH _. apply IH. exact Hfs.
Qed.

(** The trace of the loop starts with the request for the layout it was
    entered with. *)
Lemma create_rx_ring_retry_trace ls r w :
  exists rest,
    trace (world_of (create_rx_ring_retry E ls r w)) =
    trace w ++ EvRxRing (raw_prefix (raw r) ls) ls :: rest.
Proof.
  apply (create_rx_ring_retry_induction ls
           (fun r w x => exists rest,
                trace (world_of x) =
                trace w ++ EvRxRing (raw_prefix (raw r) ls) ls :: rest)).
  - intros r0 w0 _. exists []. reflexivity.
  - intros r0 w0 _ _. exists []. reflexivity.
  - intros r0 w0 x _ _ [rest Hrest]. rewrite Hrest. simpl.
    rewrite <- app_assoc. simpl. eauto.
Qed.

(** ** The layout calculator *)

(** The run of [setup_rx_ring_layout], case by case. *)
Lemma setup_rx_ring_layout_run r size jumbo v3 w :
  setup_rx_ring_layout E r size jumbo v3 w =
  if rx_block_size E jumbo =? 0 then Stop DivByZero w
  else
    let q := rx_layout E (raw r) size jumbo v3 in
    if ring_verify_layout_ok E q
    then Done (set_raw r q) (abi_selected v3 w)
    else Stop (Panic "ring_verify_layout") (abi_selected v3 w).
Proof.
  unfold setup_rx_ring_layout, bind, udiv, ring_verify_layout, rx_layout.
  fold (rx_block_size E jumbo). fold (rx_frame_size jumbo).
  destruct (rx_block_size E jumbo =? 0) eqn:Hb; [reflexivity|].
  replace (rx_frame_size jumbo =? 0) with false by (destruct jumbo; reflexivity).
  destruct v3; simpl;
    match goal with |- context [ring_verify_layout_ok E ?q] =>
      destruct (ring_verify_layout_ok E q) end; reflexivity.
Qed.

Lemma setup_rx_ring_layout_fields r size jumbo v3 w r' w' :
  setup_rx_ring_layout E r size jumbo v3 w = Done r' w' ->
  r' = set_raw r (rx_layout E (raw r) size jumbo v3) /\ w' = abi_selected v3 w.
Proof.
  rewrite setup_rx_ring_layout_run.
  destruct (rx_block_size E jumbo =? 0); [discriminate|]. cbn zeta.
  destruct (ring_verify_layout_ok E _); [|discriminate].
  intros H. injection H as <- <-. auto.
Qed.

Lemma rx_layout_block_size old size jumbo v3 :
  tp_block_size (rx_layout E old size jumbo v3) = rx_block_size E jumbo.
Proof. unfold rx_layout. destruct v3; reflexivity. Qed.

Lemma rx_layout_frame_size old size jumbo v3 :
  tp_frame_size (rx_layout E old size jumbo v3) = rx_frame_size jumbo.
Proof. unfold rx_layout. destruct v3; reflexivity. Qed.

Lemma rx_layout_block_nr old size jumbo v3 :
  tp_block_nr (rx_layout E old size jumbo v3) =
  wrap32 (size / rx_block_size E jumbo).
Proof. unfold rx_layout. destruct v3; reflexivity. Qed.

Lemma rx_layout_frame_nr old size jumbo v3 :
  tp_frame_nr (rx_layout E old size jumbo v3) =
  wrap32 (rx_block_size E jumbo / rx_frame_size jumbo
          * wrap32 (size / rx_block_size E jumbo)).
Proof. unfold rx_layout. destruct v3; reflexivity. Qed.

Lemma rx_frame_size_value jumbo :
  rx_frame_size jumbo = (if jumbo then 32 else 1) * Z.shiftl TPACKET_ALIGNMENT 7.
Proof. destruct jumbo; reflexivity. Qed.

Lemma rx_block_size_value jumbo :
  0 < RUNTIME_PAGE_SIZE E -> 16 * RUNTIME_PAGE_SIZE E < 2 ^ 32 ->
  rx_block_size E jumbo = (if jumbo then 2 ^ 4 else 2 ^ 2) * RUNTIME_PAGE_SIZE E.
Proof.
  intros Hpos Hsmall. unfold rx_block_size.
  destruct jumbo; rewrite Z.shiftl_mul_pow2 by lia;
    rewrite wrap32_small; lia.
Qed.

Lemma rx_block_size_nonzero jumbo :
  0 < RUNTIME_PAGE_SIZE E -> 16 * RUNTIME_PAGE_SIZE E < 2 ^ 32 ->
  (rx_block_size E jumbo =? 0) = false.
Proof.
  intros Hpos Hsmall. apply Z.eqb_neq.
  rewrite rx_block_size_value by assumption. destruct jumbo; lia.
Qed.

(** On such a page size a block holds a whole number of frames. *)
Lemma rx_block_holds_frames jumbo :
  page_size_ok (RUNTIME_PAGE_SIZE E) ->
  0 < rx_frame_size jumbo <= rx_block_size E jumbo /\
  rx_block_size E jumbo =
  rx_frame_size jumbo * (rx_block_size E jumbo / rx_frame_size jumbo).
Proof.
  intros (Hpos & [c Hc] & Hsmall).
  rewrite rx_block_size_value by assumption.
  rewrite Hc in *.
  destruct jumbo.
  - change (rx_frame_size true) with 65536.
    replace (2 ^ 4 * (c * 4096)) with (c * 65536) by lia.
    rewrite Z.div_mul by lia. lia.
  - change (rx_frame_size false) with 2048.
    replace (2 ^ 2 * (c * 4096)) with (8 * c * 2048) by lia.
    rewrite Z.div_mul by lia. lia.
Qed.

(** C3, as amended. On a page size of the Linux ports the layout calculator
    does not trap: it computes a layout, selects the ABI and returns the
    layout unless [ring_verify_layout] rejects it. In that layout the frame
    size is a multiple of the kernel alignment and 32 times larger with
    jumbo support; the block count is the size budget divided by the block
    size (truncating) as long as that quotient fits the 32-bit field; and as
    long as the frame count fits its 32-bit field, frame count times frame
    size equals block size times block count. *)
Theorem setup_rx_ring_layout_geometry r size jumbo v3 w :
  page_size_ok (RUNTIME_PAGE_SIZE E) ->
  0 <= size ->
  let q := rx_layout E (raw r) size jumbo v3 in
  setup_rx_ring_layout E r size jumbo v3 w =
  (if ring_verify_layout_ok E q
   then Done (set_raw r q) (abi_selected v3 w)
   else Stop (Panic "ring_verify_layout") (abi_selected v3 w)) /\
  (TPACKET_ALIGNMENT | tp_frame_size q) /\
  tp_frame_size q = (if jumbo then 32 else 1) * Z.shiftl TPACKET_ALIGNMENT 7 /\
  (size / tp_block_size q < 2 ^ 32 -> tp_block_nr q = size / tp_block_size q) /\
  (tp_block_size q / tp_frame_size q * tp_block_nr q < 2 ^ 32 ->
   tp_frame_nr q * tp_frame_size q = tp_block_size q * tp_block_nr q).
Proof.
  intros Hpage Hsize. cbn zeta.
  destruct (rx_block_holds_frames jumbo Hpage) as [[Hf Hb] Hdiv].
  rewrite rx_layout_block_size, rx_layout_frame_size, rx_layout_block_nr,
    rx_layout_frame_nr.
  split; [|split; [|split; [|split]]].
  - rewrite setup_rx_ring_layout_run.
    destruct Hpage as (Hpos & _ & Hsmall).
    rewrite rx_block_size_nonzero by assumption. reflexivity.
  - rewrite rx_frame_size_value.
    exists ((if jumbo then 32 else 1) * 2 ^ 7). unfold TPACKET_ALIGNMENT.
    destruct jumbo; reflexivity.
  - apply rx_frame_size_value.
  - intros Hfit. apply wrap32_small.
    split; [apply Z.div_pos; lia | assumption].
  - intros Hfit.
    assert (0 <= rx_block_size E jumbo / rx_frame_size jumbo)
      by (apply Z.div_pos; lia).
    pose proof (wrap32_range (size / rx_block_size E jumbo)).
    rewrite wrap32_small by (split; [apply Z.mul_nonneg_nonneg; lia|assumption]).
    set (n := wrap32 (size / rx_block_size E jumbo)) in *.
    set (c := rx_block_size E jumbo / rx_frame_size jumbo) in *.
    rewrite Hdiv. ring.
Qed.

(** C4, as amended. As long as 16 pages fit 32 bits, the layout calculator
    does not trap, and the block size it computes is the page size times 2^2
    without jumbo support and times 2^4 with it: the jumbo block is 4 times
    the small one. *)
Theorem setup_rx_ring_layout_block_size r size v3 w :
  0 < RUNTIME_PAGE_SIZE E ->
  16 * RUNTIME_PAGE_SIZE E < 2 ^ 32 ->
  let small := rx_layout E (raw r) size false v3 in
  let jumbo := rx_layout E (raw r) size true v3 in
  setup_rx_ring_layout E r size false v3 w =
  (if ring_verify_layout_ok E small
   then Done (set_raw r small) (abi_selected v3 w)
   else Stop (Panic "ring_verify_layout") (abi_selected v3 w)) /\
  setup_rx_ring_layout E r size true v3 w =
  (if ring_verify_layout_ok E jumbo
   then Done (set_raw r jumbo) (abi_selected v3 w)
   else Stop (Panic "ring_verify_layout") (abi_selected v3 w)) /\
  tp_block_size small = 2 ^ 2 * RUNTIME_PAGE_SIZE E /\
  tp_block_size jumbo = 2 ^ 4 * RUNTIME_PAGE_SIZE E /\
  tp_block_size jumbo = 4 * tp_block_size small.
Proof.
  intros Hpos Hsmall. cbn zeta.
  rewrite !setup_rx_ring_layout_run, !rx_block_size_nonzero by assumption.
  rewrite !rx_layout_block_size, !rx_block_size_value by assumption.
  repeat split; try reflexivity. lia.
Qed.

(** ** The ring allocator *)

Lemma create_rx_ring_Done r verbose w r' w' :
  create_rx_ring E r verbose w = Done r' w' ->
  exists rc r1 w1,
    create_rx_ring_retry E (get_ring_layout_size E (tpacket_v3_active E w)) r w
    = Done (rc, r1) w1 /\
    0 <= rc /\
    r' = set_mm_len r1 (wrap64 (tp_block_size (raw r1) * tp_block_nr (raw r1))) /\
    pkt_version w' = pkt_version w1 /\ errno w' = errno w1 /\
    rx_ring_calls w' = rx_ring_calls w1.
Proof.
  unfold create_rx_ring, bind. rewrite is_tpacket_v3_run.
  destruct (create_rx_ring_retry _ _ _ _) as [[rc r1] w1|] eqn:Hloop;
    [|discriminate].
  destruct (rc <? 0) eqn:Hrc; [discriminate|]. apply Z.ltb_ge in Hrc.
  intros H. exists rc, r1, w1. split; [reflexivity|]. split; [assumption|].
  destruct verbose; [destruct (negb (tpacket_v3_active E w))|];
    simpl in H; injection H as <- <-; auto.
Qed.

(** C2. When [ring_rx_setup] returns, whatever the size budget, the jumbo
    setting, the ABI and the number of halvings the allocator went through,
    the mapped length of the ring is its block size times its block count. *)
Theorem ring_rx_setup_mm_len size ifindex v3 jumbo verbose w r' w' :
  ring_rx_setup E size ifindex v3 jumbo verbose w = Done r' w' ->
  mm_len r' = tp_block_size (raw r') * tp_block_nr (raw r').
Proof.
  unfold ring_rx_setup, bind.
  destruct (setup_rx_ring_layout _ _ _ _ _ _) as [r1 w1|] eqn:H1; [|discriminate].
  destruct (create_rx_ring _ _ _ _) as [r2 w2|] eqn:H2; [|discriminate].
  unfold mmap_ring_generic, alloc_rx_ring_frames, alloc_ring_frames_generic,
    bind_ring_generic, prepare_polling, bind, emit, ret, panic.
  destruct (mmap_reply E _) as [addr|]; [|discriminate].
  rewrite is_tpacket_v3_run.
  destruct (bind_reply E); [|discriminate].
  intros H. injection H as <- _. simpl.
  apply create_rx_ring_Done in H2.
  destruct H2 as (rc & r1' & w1' & Hloop & _ & -> & _).
  apply create_rx_ring_retry_post in Hloop.
  destruct Hloop as [_ _ _ Hbs _ [k (Hk & _)] _ _ _].
  apply setup_rx_ring_layout_fields in H1. destruct H1 as [-> _].
  simpl in Hbs, Hk.
  rewrite rx_layout_block_size in Hbs. rewrite rx_layout_block_nr in Hk.
  simpl.
  assert (Hrb : 0 <= tp_block_size (raw r1') < 2 ^ 32).
  { rewrite Hbs. apply wrap32_range. }
  assert (Hrn : 0 <= tp_block_nr (raw r1') < 2 ^ 32).
  { rewrite Hk. apply shiftr_range; [apply wrap32_range | lia]. }
  apply wrap64_small. change (2 ^ 64) with (2 ^ 32 * 2 ^ 32). nia.
Qed.

Lemma rx_ring_failed q ls w e :
  rx_ring_reply E (rx_ring_calls w) (raw_prefix q ls) = SysErr e ->
  rx_ring_rc E q ls w = -1 /\ errno (rx_ring_world E q ls w) = e.
Proof. unfold rx_ring_rc, rx_ring_world. intros ->. auto. Qed.

Lemma rx_ring_succeeded q ls w :
  rx_ring_reply E (rx_ring_calls w) (raw_prefix q ls) = SysOk ->
  rx_ring_rc E q ls w = 0 /\ errno (rx_ring_world E q ls w) = errno w.
Proof. unfold rx_ring_rc, rx_ring_world. intros ->. auto. Qed.

(** Whenever the test of line 114 holds the loop goes round. *)
Lemma create_rx_ring_retry_again ls r w :
  errno (rx_ring_world E (raw r) ls w) = ENOMEM ->
  1 < tp_block_nr (raw r) ->
  tp_frame_size (raw r) <> 0 ->
  create_rx_ring_retry E ls r w =
  create_rx_ring_retry E ls (set_raw r (halved (raw r)))
                       (rx_ring_world E (raw r) ls w).
Proof.
  intros Herrno Hgt Hfs. rewrite create_rx_ring_retry_step. cbn zeta.
  replace (retry_wanted _ _) with true
    by (symmetry; apply retry_wanted_true; auto).
  rewrite shrink_layout_halved by assumption. reflexivity.
Qed.

(** Otherwise it is left with what the call returned. *)
Lemma create_rx_ring_retry_leave ls r w :
  errno (rx_ring_world E (raw r) ls w) <> ENOMEM \/ tp_block_nr (raw r) <= 1 ->
  create_rx_ring_retry E ls r w =
  Done (rx_ring_rc E (raw r) ls w, r) (rx_ring_world E (raw r) ls w).
Proof.
  intros H. rewrite create_rx_ring_retry_step. cbn zeta.
  replace (retry_wanted _ _) with false
    by (symmetry; apply retry_wanted_false; auto).
  reflexivity.
Qed.

(** C9. The decision to degrade and retry looks at [errno] only: in every
    state where, the request having returned, [errno] is ENOMEM and the
    block count exceeds 1, the block count is halved, the frame count
    recomputed and the request issued again, whatever the request returned
    (0 included). *)
Theorem create_rx_ring_retry_on_errno_alone ls r w :
  errno (rx_ring_world E (raw r) ls w) = ENOMEM ->
  1 < tp_block_nr (raw r) ->
  tp_frame_size (raw r) <> 0 ->
  let w1 := rx_ring_world E (raw r) ls w in
  let r1 := set_raw r (halved (raw r)) in
  create_rx_ring_retry E ls r w = create_rx_ring_retry E ls r1 w1 /\
  tp_block_nr (raw r1) = tp_block_nr (raw r) / 2 /\
  exists rest,
    trace (world_of (create_rx_ring_retry E ls r w)) =
    trace w ++ EvRxRing (raw_prefix (raw r) ls) ls
            :: EvRxRing (raw_prefix (raw r1) ls) ls :: rest.
Proof.
  intros Herrno Hgt Hfs. cbn zeta.
  pose proof (create_rx_ring_retry_again ls r w Herrno Hgt Hfs) as Hagain.
  split; [exact Hagain|]. split.
  - simpl. rewrite Z.shiftr_div_pow2 by lia. reflexivity.
  - rewrite Hagain.
    destruct (create_rx_ring_retry_trace ls (set_raw r (halved (raw r)))
                (rx_ring_world E (raw r) ls w)) as [rest Hrest].
    exists rest. rewrite Hrest. simpl. rewrite <- app_assoc. reflexivity.
Qed.

(** Once [errno] is ENOMEM and the kernel grants every further request, the
    loop runs on until one block is left: nothing resets [errno]. *)
Lemma create_rx_ring_retry_enomem_sticks ls r w :
  errno w = ENOMEM ->
  (forall n ws, (rx_ring_calls w <= n)%nat -> rx_ring_reply E n ws = SysOk) ->
  tp_frame_size (raw r) <> 0 ->
  1 <= tp_block_nr (raw r) ->
  exists r' w',
    create_rx_ring_retry E ls r w = Done (0, r') w' /\
    tp_block_nr (raw r') = 1.
Proof.
  apply (create_rx_ring_retry_induction ls
           (fun r w x =>
              errno w = ENOMEM ->
              (forall n ws, (rx_ring_calls w <= n)%nat ->
                            rx_ring_reply E n ws = SysOk) ->
              tp_frame_size (raw r) <> 0 ->
              1 <= tp_block_nr (raw r) ->
              exists r' w', x = Done (0, r') w' /\ tp_block_nr (raw r') = 1)).
  - intros r0 w0 Hleave Herrno Hok _ Hone.
    destruct (rx_ring_succeeded (raw r0) ls w0 (Hok _ _ (le_n _))) as [-> He].
    apply retry_wanted_false in Hleave. rewrite He in Hleave.
    exists r0, (rx_ring_world E (raw r0) ls w0). split; [reflexivity|].
    destruct Hleave; [contradiction | lia].
  - intros r0 w0 _ Hs _ _ Hfs _. unfold shrink_layout in Hs.
    apply Z.eqb_neq in Hfs. rewrite Hfs in Hs. discriminate.
  - intros r0 w0 x Hgo Hfs IH Herrno Hok _ Hone.
    apply retry_wanted_true in Hgo. destruct Hgo as [_ Hgt].
    apply IH.
    + destruct (rx_ring_succeeded (raw r0) ls w0 (Hok _ _ (le_n _))) as [_ ->].
      exact Herrno.
    + intros n ws Hn. apply Hok. simpl in Hn. lia.
    + exact Hfs.
    + simpl. apply shiftr1_bounds in Hgt. lia.
Qed.

(** The general shape of the defect behind C1: let the kernel be out of
    memory for the first [k >= 1] requests and grant all later ones, with
    room for [k] halvings. The loop does not stop at the block count the
    kernel granted first; it ends with one block. *)
Lemma create_rx_ring_retry_after_enomem ls (k : nat) :
  forall r w,
    (forall i ws, (i <= k)%nat ->
                  rx_ring_reply E (rx_ring_calls w + i) ws = SysErr ENOMEM) ->
    (forall n ws, (rx_ring_calls w + S k <= n)%nat ->
                  rx_ring_reply E n ws = SysOk) ->
    2 ^ Z.of_nat (S k) <= tp_block_nr (raw r) ->
    tp_frame_size (raw r) <> 0 ->
    exists r' w',
      create_rx_ring_retry E ls r w = Done (0, r') w' /\
      tp_block_nr (raw r') = 1.
Proof.
  induction k as [|k IH]; intros r w Hfail Hok Hroom Hfs.
  - assert (Hgt : 1 < tp_block_nr (raw r)) by (simpl in Hroom; lia).
    pose proof (Hfail 0%nat (raw_prefix (raw r) ls) (le_n _)) as H0.
    rewrite Nat.add_0_r in H0.
    destruct (rx_ring_failed _ _ _ _ H0) as [_ Herrno].
    rewrite (create_rx_ring_retry_again ls r w Herrno Hgt Hfs).
    apply create_rx_ring_retry_enomem_sticks; try assumption.
    + intros n ws Hn. apply Hok. simpl in Hn. lia.
    + simpl. apply shiftr1_bounds in Hgt. lia.
  - assert (Hpow : 2 ^ Z.of_nat (S (S k)) = 2 * 2 ^ Z.of_nat (S k)).
    { rewrite (Nat2Z.inj_succ (S k)), Z.pow_succ_r by lia. reflexivity. }
    assert (0 < 2 ^ Z.of_nat (S k)) by (apply Z.pow_pos_nonneg; lia).
    assert (Hgt : 1 < tp_block_nr (raw r)) by lia.
    pose proof (Hfail 0%nat (raw_prefix (raw r) ls) (Nat.le_0_l _)) as H0.
    rewrite Nat.add_0_r in H0.
    destruct (rx_ring_failed _ _ _ _ H0) as [_ Herrno].
    rewrite (create_rx_ring_retry_again ls r w Herrno Hgt Hfs).
    apply IH.
    + intros i ws Hi. simpl.
      replace (S (rx_ring_calls w + i)) with (rx_ring_calls w + S i)%nat by lia.
      apply Hfail. lia.
    + intros n ws Hn. apply Hok. simpl in Hn. lia.
    + simpl. rewrite Z.shiftr_div_pow2 by lia. change (2 ^ 1) with 2.
      apply Z.div_le_lower_bound; lia.
    + exact Hfs.
Qed.

(** With one block (or none) left, a request that fails is fatal at once:
    one request, no retry. *)
Lemma create_rx_ring_fatal_at_one r verbose w e :
  tp_block_nr (raw r) <= 1 ->
  rx_ring_reply E (rx_ring_calls w)
    (raw_prefix (raw r) (get_ring_layout_size E (tpacket_v3_active E w)))
  = SysErr e ->
  create_rx_ring E r verbose w =
  Stop (Panic "Cannot allocate RX_RING!")
       (rx_ring_world E (raw r)
          (get_ring_layout_size E (tpacket_v3_active E w)) w).
Proof.
  intros Hone Hfail. unfold create_rx_ring, bind.
  rewrite is_tpacket_v3_run.
  rewrite create_rx_ring_retry_leave by auto.
  destruct (rx_ring_failed _ _ _ _ Hfail) as [-> _]. reflexivity.
Qed.

(** A ring that enters the allocator with at least one block leaves it with
    at least one block, and with the frame count of lines 116 to 118 if any
    halving took place. *)
Lemma create_rx_ring_keeps_a_block r verbose w r' w' :
  1 <= tp_block_nr (raw r) ->
  create_rx_ring E r verbose w = Done r' w' ->
  1 <= tp_block_nr (raw r') <= tp_block_nr (raw r) /\
  (tp_block_nr (raw r') <> tp_block_nr (raw r) ->
   tp_frame_nr (raw r') =
   wrap32 (tp_block_size (raw r') / tp_frame_size (raw r')
           * tp_block_nr (raw r'))).
Proof.
  intros Hone Hrun. apply create_rx_ring_Done in Hrun.
  destruct Hrun as (rc & r1 & w1 & Hloop & _ & -> & _).
  apply create_rx_ring_retry_post in Hloop.
  destruct Hloop as [_ _ _ _ _ [k (K1 & _ & K3 & K4)] Hge _ _].
  simpl. split; [split; [auto|]|].
  - rewrite K1, Z.shiftr_div_pow2 by lia.
    assert (0 < 2 ^ Z.of_nat k) by (apply Z.pow_pos_nonneg; lia).
    apply Z.div_le_upper_bound; [assumption | nia].
  - intros Hne. apply K4. intros ->. apply Hne.
    rewrite K1. apply Z.shiftr_0_r.
Qed.

(** ** Reading traces *)

Lemma printed_app t u : printed (t ++ u) = printed t ++ printed u.
Proof.
  induction t as [|e t IH]; [reflexivity|].
  destruct e; simpl; rewrite IH; reflexivity.
Qed.

Lemma unmapped_bytes_app t u :
  unmapped_bytes (t ++ u) = unmapped_bytes t + unmapped_bytes u.
Proof.
  induction t as [|e t IH]; [reflexivity|].
  destruct e; simpl; rewrite IH; lia.
Qed.

Lemma freed_app t u : freed (t ++ u) = freed t ++ freed u.
Proof.
  induction t as [|e t IH]; [reflexivity|].
  destruct e; simpl; rewrite IH; reflexivity.
Qed.

(** ** Teardown *)

(** The run of [destroy_rx_ring], case by case. *)
Lemma destroy_rx_ring_run r w :
  destroy_rx_ring E r w =
  let w1 := log (EvXfree (frames r)) (log (EvMunmap (mm_space r) (mm_len r)) w) in
  match xfree_func E (frames r) with
  | None => Stop (Panic "xfree") w1
  | Some p =>
      if tpacket_v3_active E w
      then Done (mk_ring p (mm_space r) 0 (raw r)) w1
      else
        let q0 := zero_layout (raw r) in
        let w2 := rx_ring_world E q0 sizeof_tpacket_req w1 in
        match rx_ring_reply E (rx_ring_calls w) [0; 0; 0; 0] with
        | SysOk => Done (mk_ring p (mm_space r) 0 q0) w2
        | SysErr _ => Stop (Panic "Cannot destroy the RX_RING: %s!") w2
        end
  end.
Proof.
  unfold destroy_rx_ring, bind. rewrite is_tpacket_v3_run.
  unfold munmap, emit, xfree. simpl.
  destruct (xfree_func E (frames r)) as [p|]; [|reflexivity].
  destruct (tpacket_v3_active E w); [reflexivity|].
  unfold setsockopt_rx_ring, rx_ring_rc. simpl.
  change (raw_prefix _ sizeof_tpacket_req) with [0; 0; 0; 0].
  destruct (rx_ring_reply E (rx_ring_calls w) [0; 0; 0; 0]); reflexivity.
Qed.

(** C5. Teardown treats the two ABIs differently. Provided [xfree] returns:
    on the newer ABI it unmaps, releases the frame table and returns,
    without any request to the socket; on the older ABI it then zeroes the
    layout and issues one [PACKET_RX_RING] request carrying that zeroed
    layout, and it is fatal if that request fails. *)
Theorem destroy_rx_ring_asymmetric r w p :
  xfree_func E (frames r) = Some p ->
  let released :=
    trace w ++ [EvMunmap (mm_space r) (mm_len r); EvXfree (frames r)] in
  (tpacket_v3_active E w = true ->
   destroy_rx_ring E r w =
   Done (mk_ring p (mm_space r) 0 (raw r))
        (mk_world (errno w) (pkt_version w) (rx_ring_calls w) released))
  /\
  (tpacket_v3_active E w = false ->
   let requested := released ++ [EvRxRing [0; 0; 0; 0] sizeof_tpacket_req] in
   destroy_rx_ring E r w =
   match rx_ring_reply E (rx_ring_calls w) [0; 0; 0; 0] with
   | SysOk =>
       Done (mk_ring p (mm_space r) 0 (zero_layout (raw r)))
            (mk_world (errno w) (pkt_version w) (S (rx_ring_calls w)) requested)
   | SysErr e =>
       Stop (Panic "Cannot destroy the RX_RING: %s!")
            (mk_world e (pkt_version w) (S (rx_ring_calls w)) requested)
   end).
Proof.
  intros Hfree. cbn zeta. rewrite destroy_rx_ring_run. cbn zeta. rewrite Hfree.
  split; intros ->.
  - unfold log. simpl. rewrite <- app_assoc. reflexivity.
  - unfold rx_ring_world, log. simpl.
    change (raw_prefix _ sizeof_tpacket_req) with [0; 0; 0; 0].
    rewrite <- !app_assoc. simpl.
    destruct (rx_ring_reply E (rx_ring_calls w) [0; 0; 0; 0]); reflexivity.
Qed.

(** C6, as amended. [destroy_rx_ring] has no guard of its own against a
    second invocation. After a first one the mapped length is 0, so the
    second hands [munmap] the length 0 and no byte is unmapped again; but it
    calls [xfree] again, on whatever value the first [xfree] left in
    [ring->frames]. *)
Theorem destroy_rx_ring_again r w r1 w1 :
  destroy_rx_ring E r w = Done r1 w1 ->
  mm_len r1 = 0 /\
  xfree_func E (frames r) = Some (frames r1) /\
  (exists rest,
      trace (world_of (destroy_rx_ring E r1 w1)) =
      trace w1 ++ EvMunmap (mm_space r1) 0 :: EvXfree (frames r1) :: rest) /\
  unmapped_bytes (trace (world_of (destroy_rx_ring E r1 w1))) =
  unmapped_bytes (trace w1) /\
  freed (trace (world_of (destroy_rx_ring E r1 w1))) =
  freed (trace w1) ++ [frames r1].
Proof.
  intros Hfirst.
  assert (Hr1 : mm_len r1 = 0 /\ xfree_func E (frames r) = Some (frames r1)).
  { rewrite destroy_rx_ring_run in Hfirst. cbn zeta in Hfirst.
    destruct (xfree_func E (frames r)) as [p|]; [|discriminate].
    destruct (tpacket_v3_active E w).
    - injection Hfirst as <- _. auto.
    - destruct (rx_ring_reply E (rx_ring_calls w) [0; 0; 0; 0]);
        [|discriminate].
      injection Hfirst as <- _. auto. }
  destruct Hr1 as [Hlen Hptr]. split; [exact Hlen|]. split; [exact Hptr|].
  rewrite destroy_rx_ring_run. cbn zeta. rewrite Hlen.
  destruct (xfree_func E (frames r1)) as [p|];
    [destruct (tpacket_v3_active E w1);
     [|destruct (rx_ring_reply E (rx_ring_calls w1) [0; 0; 0; 0])]|];
    unfold rx_ring_world, log; simpl; rewrite <- ?app_assoc; simpl;
    (split; [eexists; reflexivity|]);
    rewrite unmapped_bytes_app, freed_app; simpl; split; lia || reflexivity.
Qed.

(** ** Statistics *)

(** The run of [sock_rx_net_stats], case by case. *)
Lemma sock_rx_net_stats_run seen w :
  sock_rx_net_stats E seen w =
  let v3 := tpacket_v3_active E w in
  let slen := if v3 then sizeof_tpacket_stats_v3 else sizeof_tpacket_stats in
  match stats_reply_of E with
  | StatsErr e =>
      Done tt (mk_world e (pkt_version w) (rx_ring_calls w)
                        (trace w ++ [EvGetStats slen]))
  | StatsOk p d =>
      let packets := wrap64 (wrap32 p) in
      let drops := wrap64 (wrap32 d) in
      Done tt
        (mk_world (errno w) (pkt_version w) (rx_ring_calls w)
           (trace w ++
            EvGetStats slen
            :: EvPrint (LineIncoming
                          (if v3 then wrap64 seen else packets)
                          (if v3 then wrap64 (packets - wrap64 seen) else 0))
            :: EvPrint (LinePassed (wrap64 (packets - drops)))
            :: EvPrint (LineFailed drops)
            :: (if 0 <? wrap32 p
                then [EvPrint (LineDroprate (droprate drops packets))]
                else [])))
  end.
Proof.
  unfold sock_rx_net_stats, bind. rewrite is_tpacket_v3_run.
  unfold getsockopt_stats.
  destruct (stats_reply_of E) as [p d|e]; [|reflexivity].
  cbn -[wrap32 wrap64 droprate Z.ltb]. unfold printf, emit, bind, ret, log.
  cbn -[wrap32 wrap64 droprate Z.ltb].
  destruct (0 <? wrap32 p); cbn -[wrap32 wrap64 droprate];
    rewrite <- !app_assoc; reflexivity.
Qed.

Lemma counter_as_u64 n : 0 <= n < 2 ^ 32 -> wrap64 (wrap32 n) = n.
Proof.
  intros H. rewrite wrap32_small by assumption.
  apply wrap64_small. change (2 ^ 64) with (2 ^ 32 * 2 ^ 32). lia.
Qed.

(** What the check [droprates_near] covers. *)
Lemma droprates_near_covers k n dropped total :
  droprates_near k n = true ->
  0 <= dropped <= total ->
  (1 <= Z.to_nat total <= n)%nat ->
  near_fraction k (droprate dropped total) (100 * dropped) total = true.
Proof.
  intros Hall Hd Ht. unfold droprates_near in Hall.
  assert (Hin_t : In (Z.to_nat total) (seq 1 n)) by (apply in_seq; lia).
  assert (Hin_d : In (Z.to_nat dropped) (seq 0 (S (Z.to_nat total))))
    by (apply in_seq; lia).
  pose proof (proj1 (forallb_forall _ _) Hall _ Hin_t) as Hrow.
  pose proof (proj1 (forallb_forall _ _) Hrow _ Hin_d) as Hpair.
  cbv beta in Hpair. rewrite !Z2Nat.id in Hpair by lia. exact Hpair.
Qed.

Lemma droprates_near_300 : droprates_near 52 300 = true.
Proof. vm_compute. reflexivity. Qed.

(** Up to 300 packets counted, the drop rate computed in binary64 is the
    exact percentage up to a relative error of 2^-52. *)
Lemma droprate_near_exact dropped total :
  0 <= dropped <= total ->
  0 < total <= 300 ->
  near_fraction 52 (droprate dropped total) (100 * dropped) total = true.
Proof.
  intros Hd Ht.
  apply (droprates_near_covers 52 300 dropped total droprates_near_300 Hd).
  lia.
Qed.

(** C7. Given the kernel counters [total] and [dropped] (32-bit values),
    the reporter returns having printed, in this order: the incoming line,
    "passed filter" with [total - dropped] (computed modulo 2^64, hence
    exact whenever [dropped <= total]), "failed filter" with [dropped], and
    the drop rate. The drop rate is [dropped / total * 100] carried out in
    binary64: the counters converted to double, [1.0 * dropped] divided by
    [total], the quotient multiplied by [100.0]; for up to 300 packets
    counted that double is the exact fraction [100 * dropped / total] up to
    a relative error of 2^-52. The drop-rate line is printed if and only if
    [total > 0]. *)
Theorem sock_rx_net_stats_report seen w total dropped :
  stats_reply_of E = StatsOk total dropped ->
  0 <= total < 2 ^ 32 ->
  0 <= dropped < 2 ^ 32 ->
  let v3 := tpacket_v3_active E w in
  let percent :=
    PrimFloat.mul
      (PrimFloat.div
         (PrimFloat.mul 1%float (PrimFloat.of_uint63 (Uint63.of_Z dropped)))
         (PrimFloat.of_uint63 (Uint63.of_Z total)))
      100%float in
  let lines :=
    LineIncoming (if v3 then wrap64 seen else total)
                 (if v3 then wrap64 (total - wrap64 seen) else 0)
    :: LinePassed (wrap64 (total - dropped))
    :: LineFailed dropped
    :: (if 0 <? total then [LineDroprate percent] else []) in
  (exists w',
      sock_rx_net_stats E seen w = Done tt w' /\
      printed (trace w') = printed (trace w) ++ lines) /\
  (dropped <= total -> wrap64 (total - dropped) = total - dropped) /\
  ((exists x, In (LineDroprate x) lines) <-> 0 < total) /\
  (dropped <= total -> 0 < total <= 300 ->
   near_fraction 52 percent (100 * dropped) total = true).
Proof.
  intros Hreply Ht Hd. cbn zeta. split; [|split; [|split]].
  - rewrite sock_rx_net_stats_run. cbn zeta. rewrite Hreply.
    rewrite !counter_as_u64 by assumption.
    rewrite (wrap32_small total) by assumption.
    eexists. split; [reflexivity|].
    cbn [trace]. rewrite printed_app. f_equal.
    destruct (0 <? total); reflexivity.
  - intros Hle. apply wrap64_small. lia.
  - destruct (0 <? total) eqn:Hpos.
    + apply Z.ltb_lt in Hpos. split; [intros _; exact Hpos|].
      intros _. eexists. simpl. do 3 right. left. reflexivity.
    + apply Z.ltb_ge in Hpos. split; [|lia].
      intros [x Hin]. simpl in Hin.
      destruct Hin as [H|[H|[H|[]]]]; discriminate H.
  - intros Hle Hsmall.
    apply (droprate_near_exact dropped total); lia.
Qed.

(** C8. If the counter query fails, the reporter returns normally and
    prints nothing. It touches no ring (it is not given one); of the process
    state, only [errno] changes, and the query is on record. *)
Theorem sock_rx_net_stats_query_failure seen w e :
  stats_reply_of E = StatsErr e ->
  exists w',
    sock_rx_net_stats E seen w = Done tt w' /\
    printed (trace w') = printed (trace w) /\
    trace w' =
    trace w ++ [EvGetStats (if tpacket_v3_active E w
                            then sizeof_tpacket_stats_v3
                            else sizeof_tpacket_stats)] /\
    pkt_version w' = pkt_version w /\
    rx_ring_calls w' = rx_ring_calls w.
Proof.
  intros Hreply. rewrite sock_rx_net_stats_run. cbn zeta. rewrite Hreply.
  eexists. split; [reflexivity|]. cbn [trace pkt_version rx_ring_calls].
  rewrite printed_app. simpl. rewrite app_nil_r. auto.
Qed.

(** C10. On the newer ABI the backlog printed is the kernel total minus the
    count seen by the consumer, in unsigned 64-bit arithmetic: when the
    consumer has seen more than the total, the number printed is
    [(total - seen) mod 2^64], that is [2^64 - (seen - total)], a positive
    number; it is not clamped to zero. *)
Theorem sock_rx_net_stats_backlog_wraps seen w total dropped :
  tpacket_v3_active E w = true ->
  stats_reply_of E = StatsOk total dropped ->
  0 <= total < 2 ^ 32 ->
  total < seen < 2 ^ 64 ->
  exists w' rest,
    sock_rx_net_stats E seen w = Done tt w' /\
    printed (trace w') =
    printed (trace w)
    ++ LineIncoming seen ((total - seen) mod 2 ^ 64) :: rest /\
    (total - seen) mod 2 ^ 64 = 2 ^ 64 - (seen - total) /\
    0 < (total - seen) mod 2 ^ 64.
Proof.
  intros Hv3 Hreply Ht Hseen.
  assert (Hwrap : (total - seen) mod 2 ^ 64 = 2 ^ 64 - (seen - total)).
  { symmetry. apply Z.mod_unique with (q := -1); lia. }
  rewrite sock_rx_net_stats_run. cbn zeta. rewrite Hreply, Hv3.
  rewrite (counter_as_u64 total) by assumption.
  rewrite (wrap64_small seen) by lia.
  eexists. eexists. split; [reflexivity|].
  cbn [trace]. rewrite printed_app. cbn [printed].
  split; [reflexivity|]. split; [exact Hwrap | lia].
Qed.

(** ** More on the ring allocator *)

(** The run of [create_rx_ring] around its loop. *)
Lemma create_rx_ring_run r verbose w :
  create_rx_ring E r verbose w =
  let v3 := tpacket_v3_active E w in
  match create_rx_ring_retry E (get_ring_layout_size E v3) r w with
  | Stop s w1 => Stop s w1
  | Done (rc, r1) w1 =>
      if rc <? 0 then Stop (Panic "Cannot allocate RX_RING!") w1
      else
        let r2 := set_mm_len r1
                    (wrap64 (tp_block_size (raw r1) * tp_block_nr (raw r1))) in
        Done r2 (if verbose then log (EvPrint (rx_ring_line v3 r2)) w1 else w1)
  end.
Proof.
  unfold create_rx_ring, bind. rewrite is_tpacket_v3_run. cbn zeta.
  destruct (create_rx_ring_retry _ _ _ _) as [[rc r1] w1|]; [|reflexivity].
  destruct (rc <? 0); [reflexivity|].
  unfold rx_ring_line.
  destruct verbose; [destruct (negb (tpacket_v3_active E w))|]; reflexivity.
Qed.

(** The loop adds requests to the trace and nothing else, one per call
    counted. *)
Lemma create_rx_ring_retry_requests ls r w :
  exists reqs,
    trace (world_of (create_rx_ring_retry E ls r w)) = trace w ++ reqs /\
    forallb is_rx_ring_request reqs = true /\
    rx_ring_calls (world_of (create_rx_ring_retry E ls r w)) =
    (rx_ring_calls w + List.length reqs)%nat.
Proof.
  apply (create_rx_ring_retry_induction ls
           (fun r w x => exists reqs,
                trace (world_of x) = trace w ++ reqs /\
                forallb is_rx_ring_request reqs = true /\
                rx_ring_calls (world_of x) =
                (rx_ring_calls w + List.length reqs)%nat)).
  - intros r0 w0 _. eexists [_]. simpl. repeat split; lia.
  - intros r0 w0 _ _. eexists [_]. simpl. repeat split; lia.
  - intros r0 w0 x _ _ (reqs & Ht & Hall & Hn).
    exists (EvRxRing (raw_prefix (raw r0) ls) ls :: reqs).
    rewrite Ht, Hn. simpl. rewrite <- app_assoc. simpl.
    repeat split; [assumption | lia].
Qed.

Lemma printed_requests reqs :
  forallb is_rx_ring_request reqs = true -> printed reqs = [].
Proof.
  induction reqs as [|e reqs IH]; [reflexivity|].
  simpl. intros H. apply andb_true_iff in H. destruct H as [He Hreqs].
  destruct e; try discriminate He. simpl. auto.
Qed.

(** X1. A request that fails is fatal at once unless it failed for lack of
    memory with more than one block asked for: one request, no retry, and
    the process exits with the diagnostic of line 122. *)
Theorem create_rx_ring_fatal_unless_enomem r verbose w e :
  rx_ring_reply E (rx_ring_calls w)
    (raw_prefix (raw r) (get_ring_layout_size E (tpacket_v3_active E w)))
  = SysErr e ->
  e <> ENOMEM \/ tp_block_nr (raw r) <= 1 ->
  create_rx_ring E r verbose w =
  Stop (Panic "Cannot allocate RX_RING!")
       (mk_world e (pkt_version w) (S (rx_ring_calls w))
          (trace w ++
           [EvRxRing (raw_prefix (raw r)
                        (get_ring_layout_size E (tpacket_v3_active E w)))
                     (get_ring_layout_size E (tpacket_v3_active E w))])).
Proof.
  intros Hfail Hwhy. rewrite create_rx_ring_run. cbn zeta.
  destruct (rx_ring_failed _ _ _ _ Hfail) as [Hrc Herrno].
  rewrite create_rx_ring_retry_leave by (rewrite Herrno; exact Hwhy).
  rewrite Hrc. simpl. unfold rx_ring_world. rewrite Hfail. reflexivity.
Qed.

(** X2. Without memory pressure there is no degradation. If [errno] is not
    ENOMEM on entry and the kernel grants the first request, the allocator
    issues that one request, leaves the layout as it was and sets the mapped
    length to block size times block count. *)
Theorem create_rx_ring_first_grant r verbose w :
  errno w <> ENOMEM ->
  rx_ring_reply E (rx_ring_calls w)
    (raw_prefix (raw r) (get_ring_layout_size E (tpacket_v3_active E w)))
  = SysOk ->
  exists w',
    create_rx_ring E r verbose w =
    Done (set_mm_len r (wrap64 (tp_block_size (raw r) * tp_block_nr (raw r)))) w'
    /\ rx_ring_calls w' = S (rx_ring_calls w)
    /\ errno w' = errno w.
Proof.
  intros Hclean Hok. rewrite create_rx_ring_run. cbn zeta.
  destruct (rx_ring_succeeded _ _ _ Hok) as [Hrc Herrno].
  rewrite create_rx_ring_retry_leave by (rewrite Herrno; auto).
  rewrite Hrc. simpl.
  eexists. split; [reflexivity|].
  destruct verbose; simpl; rewrite Hok; auto.
Qed.

(** X3. The retries are capped. Entered with at least one block (and a frame
    size that is not 0), the allocator issues at least one and at most
    1 + log2(block count) requests, whether it returns or exits. *)
Theorem create_rx_ring_request_bound r verbose w :
  tp_frame_size (raw r) <> 0 ->
  1 <= tp_block_nr (raw r) ->
  (rx_ring_calls w <
   rx_ring_calls (world_of (create_rx_ring E r verbose w))
   <= rx_ring_calls w + Z.to_nat (Z.log2 (tp_block_nr (raw r))) + 1)%nat.
Proof.
  intros Hfs Hone. rewrite create_rx_ring_run. cbn zeta.
  destruct (create_rx_ring_retry_total
              (get_ring_layout_size E (tpacket_v3_active E w)) r w Hfs)
    as (rc & r1 & w1 & Hloop).
  rewrite Hloop.
  apply create_rx_ring_retry_post in Hloop.
  destruct Hloop as [_ _ _ _ _ [k (K1 & K2 & _)] Hge _ _].
  assert (Hk : (k <= Z.to_nat (Z.log2 (tp_block_nr (raw r))))%nat).
  { specialize (Hge Hone). rewrite K1, Z.shiftr_div_pow2 in Hge by lia.
    assert (Hpow : 0 < 2 ^ Z.of_nat k) by (apply Z.pow_pos_nonneg; lia).
    assert (2 ^ Z.of_nat k <= tp_block_nr (raw r)).
    { destruct (Z_lt_le_dec (tp_block_nr (raw r)) (2 ^ Z.of_nat k)) as [Hlt|];
        [|assumption].
      rewrite Z.div_small in Hge by lia. lia. }
    apply Z.log2_le_pow2 in H; lia. }
  destruct (rc <? 0); [|destruct verbose]; simpl; rewrite K2; lia.
Qed.

(** The ring a returning allocator hands back, [k] being the number of
    halvings. *)
Lemma create_rx_ring_shape r verbose w r' w' :
  create_rx_ring E r verbose w = Done r' w' ->
  exists k : nat,
    rx_ring_calls w' = (rx_ring_calls w + k + 1)%nat /\
    tp_block_nr (raw r') = Z.shiftr (tp_block_nr (raw r)) (Z.of_nat k) /\
    tp_block_size (raw r') = tp_block_size (raw r) /\
    tp_frame_size (raw r') = tp_frame_size (raw r) /\
    mm_len r' = wrap64 (tp_block_size (raw r') * tp_block_nr (raw r')) /\
    (k = 0%nat -> tp_frame_nr (raw r') = tp_frame_nr (raw r)) /\
    (k <> 0%nat ->
     tp_frame_nr (raw r') =
     wrap32 (tp_block_size (raw r') / tp_frame_size (raw r')
             * tp_block_nr (raw r'))) /\
    frames r' = frames r /\ mm_space r' = mm_space r.
Proof.
  intros Hrun. apply create_rx_ring_Done in Hrun.
  destruct Hrun as (rc & r1 & w1 & Hloop & _ & -> & _ & _ & Hcalls).
  apply create_rx_ring_retry_post in Hloop.
  destruct Hloop as [F1 F2 _ Hbs Hfs [k (K1 & K2 & K3 & K4)] _ _ _].
  exists k. rewrite Hcalls. simpl. repeat split; auto.
Qed.

(** X4. The block count the allocator settles on is the one it was entered
    with, halved once per retry. If it returns after [n + 1] requests, the
    block count is the initial one divided by 2^n, block size and frame size
    are as before, the mapped length is block size times block count, and
    the frame count is the one of lines 116 to 118 if [n > 0] and untouched
    if [n = 0]. *)
Theorem create_rx_ring_halves_per_retry r verbose w r' w' :
  create_rx_ring E r verbose w = Done r' w' ->
  let n := (rx_ring_calls w' - rx_ring_calls w - 1)%nat in
  (rx_ring_calls w < rx_ring_calls w')%nat /\
  tp_block_nr (raw r') = tp_block_nr (raw r) / 2 ^ Z.of_nat n /\
  tp_block_size (raw r') = tp_block_size (raw r) /\
  tp_frame_size (raw r') = tp_frame_size (raw r) /\
  mm_len r' = wrap64 (tp_block_size (raw r') * tp_block_nr (raw r')) /\
  (n = 0%nat -> tp_frame_nr (raw r') = tp_frame_nr (raw r)) /\
  (n <> 0%nat ->
   tp_frame_nr (raw r') =
   wrap32 (tp_block_size (raw r') / tp_frame_size (raw r')
           * tp_block_nr (raw r'))).
Proof.
  intros Hrun. cbn zeta. apply create_rx_ring_Done in Hrun.
  destruct Hrun as (rc & r1 & w1 & Hloop & _ & -> & _ & _ & Hcalls).
  apply create_rx_ring_retry_post in Hloop.
  destruct Hloop as [_ _ _ Hbs Hfs [k (K1 & K2 & K3 & K4)] _ _ _].
  rewrite Hcalls, K2.
  replace (rx_ring_calls w + k + 1 - rx_ring_calls w - 1)%nat with k by lia.
  simpl. rewrite <- Z.shiftr_div_pow2 by lia.
  repeat split; auto. lia.
Qed.

(** X5. The stale [errno] at large. Let the kernel be out of memory for the
    first [k + 1] requests and grant all later ones, the ring having room
    for [k + 1] halvings. The allocator then returns, but with one block,
    not with the block count the kernel granted first. *)
Theorem create_rx_ring_collapses_after_enomem (k : nat) r verbose w :
  (forall i ws, (i <= k)%nat ->
                rx_ring_reply E (rx_ring_calls w + i) ws = SysErr ENOMEM) ->
  (forall n ws, (rx_ring_calls w + S k <= n)%nat ->
                rx_ring_reply E n ws = SysOk) ->
  2 ^ Z.of_nat (S k) <= tp_block_nr (raw r) ->
  tp_frame_size (raw r) <> 0 ->
  exists r' w',
    create_rx_ring E r verbose w = Done r' w' /\
    tp_block_nr (raw r') = 1 /\
    mm_len r' = wrap64 (tp_block_size (raw r)).
Proof.
  intros Hfail Hok Hroom Hfs. rewrite create_rx_ring_run. cbn zeta.
  destruct (create_rx_ring_retry_after_enomem
              (get_ring_layout_size E (tpacket_v3_active E w)) k r w
              Hfail Hok Hroom Hfs) as (r1 & w1 & Hloop & Hone).
  rewrite Hloop. simpl.
  apply create_rx_ring_retry_post in Hloop.
  destruct Hloop as [_ _ _ Hbs _ _ _ _ _].
  eexists. eexists. split; [reflexivity|]. simpl.
  split; [exact Hone|]. rewrite Hone, Hbs, Z.mul_1_r. reflexivity.
Qed.

(** X6. What the allocator reports. When it returns it has printed one line
    if verbose and none otherwise; the line names the frame count and frame
    size on the older ABI, the block count and block size on the newer one,
    each with the mapped length, all as they are in the ring returned. *)
Theorem create_rx_ring_report r verbose w r' w' :
  create_rx_ring E r verbose w = Done r' w' ->
  printed (trace w') =
  printed (trace w)
  ++ (if verbose
      then [if tpacket_v3_active E w
            then LineRxV3 (mm_len r') (tp_block_nr (raw r'))
                          (tp_block_size (raw r'))
            else LineRxV2 (mm_len r') (tp_frame_nr (raw r'))
                          (tp_frame_size (raw r'))]
      else []).
Proof.
  rewrite create_rx_ring_run. cbn zeta.
  destruct (create_rx_ring_retry_requests
              (get_ring_layout_size E (tpacket_v3_active E w)) r w)
    as (reqs & Htrace & Hreqs & _).
  destruct (create_rx_ring_retry _ _ _ _) as [[rc r1] w1|]; [|discriminate].
  destruct (rc <? 0); [discriminate|].
  simpl in Htrace. intros H. injection H as <- <-.
  unfold rx_ring_line.
  destruct verbose; simpl; rewrite Htrace, ?printed_app,
    (printed_requests reqs Hreqs), ?app_nil_r;
    [|reflexivity].
  destruct (tpacket_v3_active E w); reflexivity.
Qed.

(** ** More on the set-up sequence *)

Lemma tpacket_v3_active_selected v3 w :
  tpacket_v3_active E (abi_selected v3 w) = v3_in_use E v3.
Proof.
  unfold tpacket_v3_active, abi_selected, v3_in_use. simpl.
  destruct v3; reflexivity.
Qed.

(** A set-up that returns, step by step. *)
Lemma ring_rx_setup_Done size ifindex v3 jumbo verbose w r' w' :
  ring_rx_setup E size ifindex v3 jumbo verbose w = Done r' w' ->
  exists r2 w2 addr,
    rx_block_size E jumbo <> 0 /\
    create_rx_ring E (set_raw zero_ring
                        (rx_layout E (raw zero_ring) size jumbo v3))
                   verbose (abi_selected v3 w) = Done r2 w2 /\
    mmap_reply E (tp_block_size (raw r2) * tp_block_nr (raw r2)) = Some addr /\
    r' = set_frames (set_mm_space r2 addr) (frames_addr E) /\
    tpacket_v3_active E w2 = v3_in_use E v3 /\
    trace w' =
    trace w2 ++
    [EvMmap (tp_block_size (raw r2) * tp_block_nr (raw r2));
     EvFrameTable (fst (frame_table_shape (v3_in_use E v3) (raw r2)))
                  (snd (frame_table_shape (v3_in_use E v3) (raw r2)));
     EvBind ifindex false; EvPoll] /\
    rx_ring_calls w' = rx_ring_calls w2.
Proof.
  unfold ring_rx_setup, bind.
  destruct (setup_rx_ring_layout _ _ _ _ _ _) as [r1 w1|] eqn:H1; [|discriminate].
  assert (Hnz : rx_block_size E jumbo <> 0).
  { rewrite setup_rx_ring_layout_run in H1.
    destruct (rx_block_size E jumbo =? 0) eqn:Hz; [discriminate|].
    apply Z.eqb_neq. exact Hz. }
  apply setup_rx_ring_layout_fields in H1. destruct H1 as [-> ->].
  destruct (create_rx_ring _ _ _ _) as [r2 w2|] eqn:H2; [|discriminate].
  assert (Hv : tpacket_v3_active E w2 = v3_in_use E v3).
  { pose proof H2 as H2'. apply create_rx_ring_Done in H2'.
    destruct H2' as (rc & r1 & w1 & Hloop & _ & _ & Hver & _).
    apply create_rx_ring_retry_post in Hloop.
    destruct Hloop as [_ _ _ _ _ _ _ _ Hver1].
    rewrite <- tpacket_v3_active_selected with (w := w).
    unfold tpacket_v3_active. rewrite Hver, Hver1. reflexivity. }
  unfold mmap_ring_generic, alloc_rx_ring_frames, alloc_ring_frames_generic,
    bind_ring_generic, prepare_polling, bind, emit, ret, panic.
  destruct (mmap_reply E _) as [addr|] eqn:Hmap; [|discriminate].
  rewrite is_tpacket_v3_run.
  destruct (bind_reply E); [|discriminate].
  intros H. injection H as <- <-.
  exists r2, w2, addr.
  split; [exact Hnz|]. split; [reflexivity|]. split; [exact Hmap|].
  split; [reflexivity|]. split; [exact Hv|].
  replace (tpacket_v3_active E (log _ w2)) with (v3_in_use E v3)
    by (rewrite <- Hv; reflexivity).
  unfold log, frame_table_shape. simpl.
  rewrite <- !app_assoc. simpl.
  split; [|reflexivity].
  destruct (v3_in_use E v3); reflexivity.
Qed.

Lemma rx_block_size_pos jumbo :
  rx_block_size E jumbo <> 0 -> 0 < rx_block_size E jumbo.
Proof.
  intros Hnz. pose proof (wrap32_range
    (if jumbo then Z.shiftl (RUNTIME_PAGE_SIZE E) 4
     else Z.shiftl (RUNTIME_PAGE_SIZE E) 2)) as Hr.
  unfold rx_block_size in *. lia.
Qed.

(** The ring that a set-up returns: the layout of the calculator, its
    block count halved [k] times. *)
Lemma ring_rx_setup_geometry size ifindex v3 jumbo verbose w r' w' :
  ring_rx_setup E size ifindex v3 jumbo verbose w = Done r' w' ->
  exists k : nat,
    0 < rx_block_size E jumbo /\
    tp_block_size (raw r') = rx_block_size E jumbo /\
    tp_frame_size (raw r') = rx_frame_size jumbo /\
    tp_block_nr (raw r') =
    Z.shiftr (wrap32 (size / rx_block_size E jumbo)) (Z.of_nat k) /\
    tp_frame_nr (raw r') =
    wrap32 (tp_block_size (raw r') / tp_frame_size (raw r')
            * tp_block_nr (raw r')) /\
    mm_len r' = tp_block_size (raw r') * tp_block_nr (raw r') /\
    rx_ring_calls w' = (rx_ring_calls w + k + 1)%nat.
Proof.
  intros Hrun. apply ring_rx_setup_Done in Hrun.
  destruct Hrun as (r2 & w2 & addr & Hnz & Hcreate & _ & -> & _ & _ & Hcalls).
  apply create_rx_ring_shape in Hcreate.
  destruct Hcreate as (k & Hk & Hbn & Hbs & Hfs & Hlen & K0 & K1 & _).
  simpl in Hbn, Hbs, Hfs, K0.
  rewrite rx_layout_block_nr in Hbn. rewrite rx_layout_block_size in Hbs.
  rewrite rx_layout_frame_size in Hfs. rewrite rx_layout_frame_nr in K0.
  exists k. simpl. rewrite Hcalls, Hk. simpl.
  split; [apply rx_block_size_pos; exact Hnz|].
  split; [exact Hbs|]. split; [exact Hfs|]. split; [exact Hbn|].
  split; [|split; [|reflexivity]].
  - destruct k as [|k'].
    + rewrite (K0 eq_refl), Hbs, Hfs, Hbn. simpl.
      rewrite Z.shiftr_0_r. reflexivity.
    + apply K1. discriminate.
  - rewrite Hlen. apply wrap64_small.
    assert (0 <= tp_block_size (raw r2) < 2 ^ 32)
      by (rewrite Hbs; apply wrap32_range).
    assert (0 <= tp_block_nr (raw r2) < 2 ^ 32)
      by (rewrite Hbn; apply shiftr_range; [apply wrap32_range | lia]).
    change (2 ^ 64) with (2 ^ 32 * 2 ^ 32). nia.
Qed.

Lemma wrap32_le z : 0 <= z -> wrap32 z <= z.
Proof. intros. unfold wrap32. apply Z.mod_le; lia. Qed.

Lemma shiftr_le n k : 0 <= n -> 0 <= k -> Z.shiftr n k <= n.
Proof.
  intros Hn Hk. rewrite Z.shiftr_div_pow2 by assumption.
  assert (0 < 2 ^ k) by (apply Z.pow_pos_nonneg; lia).
  apply Z.div_le_upper_bound; nia.
Qed.

(** The trace a returning allocator leaves: requests, then its report. *)
Lemma create_rx_ring_trace r verbose w r' w' :
  create_rx_ring E r verbose w = Done r' w' ->
  exists rest,
    let ls := get_ring_layout_size E (tpacket_v3_active E w) in
    trace w' =
    trace w ++ EvRxRing (raw_prefix (raw r) ls) ls :: rest
            ++ (if verbose
                then [EvPrint (rx_ring_line (tpacket_v3_active E w) r')]
                else []) /\
    forallb is_rx_ring_request rest = true.
Proof.
  rewrite create_rx_ring_run. cbn zeta.
  set (ls := get_ring_layout_size E (tpacket_v3_active E w)).
  destruct (create_rx_ring_retry_requests ls r w) as (reqs & Htrace & Hreqs & _).
  destruct (create_rx_ring_retry_trace ls r w) as (rest & Hfirst).
  rewrite Htrace in Hfirst. apply app_inv_head in Hfirst. subst reqs.
  simpl in Hreqs.
  destruct (create_rx_ring_retry E ls r w) as [[rc r1] w1|]; [|discriminate].
  destruct (rc <? 0); [discriminate|].
  simpl in Htrace. intros H. injection H as <- <-.
  exists rest. split; [|exact Hreqs].
  destruct verbose; simpl; rewrite Htrace, <- ?app_assoc; simpl;
    rewrite ?app_nil_r; reflexivity.
Qed.

(** X7. The ring never exceeds the budget. When set-up returns, the mapped
    length is at most the size budget, halvings or not. *)
Theorem ring_rx_setup_within_budget size ifindex v3 jumbo verbose w r' w' :
  0 <= size ->
  ring_rx_setup E size ifindex v3 jumbo verbose w = Done r' w' ->
  0 <= mm_len r' <= size.
Proof.
  intros Hsize Hrun. apply ring_rx_setup_geometry in Hrun.
  destruct Hrun as (k & Hpos & Hbs & _ & Hbn & _ & -> & _).
  rewrite Hbs, Hbn.
  set (bs := rx_block_size E jumbo) in *.
  assert (Hq : 0 <= size / bs) by (apply Z.div_pos; lia).
  pose proof (wrap32_range (size / bs)) as Hr.
  pose proof (wrap32_le (size / bs) Hq) as Hle.
  pose proof (shiftr_le (wrap32 (size / bs)) (Z.of_nat k)
                        (proj1 Hr) (Nat2Z.is_nonneg k)) as Hsh.
  pose proof (shiftr_range (wrap32 (size / bs)) (Z.of_nat k) Hr
                           (Nat2Z.is_nonneg k)) as Hshr.
  pose proof (Z.mul_div_le size bs Hpos).
  split; [apply Z.mul_nonneg_nonneg; lia | nia].
Qed.

(** X8. The frames tile the ring. When set-up returns, the frame count is
    block size / frame size * block count in 32 bits, halvings included;
    on the page sizes of the Linux ports, and if that product fits 32 bits,
    frame count times frame size is the mapped length. *)
Theorem ring_rx_setup_frames_tile size ifindex v3 jumbo verbose w r' w' :
  ring_rx_setup E size ifindex v3 jumbo verbose w = Done r' w' ->
  tp_frame_nr (raw r') =
  wrap32 (tp_block_size (raw r') / tp_frame_size (raw r')
          * tp_block_nr (raw r')) /\
  (page_size_ok (RUNTIME_PAGE_SIZE E) ->
   tp_block_size (raw r') / tp_frame_size (raw r') * tp_block_nr (raw r')
   < 2 ^ 32 ->
   tp_frame_nr (raw r') * tp_frame_size (raw r') = mm_len r').
Proof.
  intros Hrun. apply ring_rx_setup_geometry in Hrun.
  destruct Hrun as (k & Hpos & Hbs & Hfs & Hbn & Hfn & Hlen & _).
  split; [exact Hfn|]. intros Hpage Hfit.
  destruct (rx_block_holds_frames jumbo Hpage) as [[Hf Hb] Hdiv].
  rewrite Hfn, Hlen. rewrite Hbs, Hfs in *.
  assert (0 <= rx_block_size E jumbo / rx_frame_size jumbo)
    by (apply Z.div_pos; lia).
  assert (0 <= tp_block_nr (raw r')).
  { rewrite Hbn. apply shiftr_range; [apply wrap32_range | lia]. }
  rewrite wrap32_small by (split; [apply Z.mul_nonneg_nonneg; lia|assumption]).
  set (c := rx_block_size E jumbo / rx_frame_size jumbo) in *.
  rewrite Hdiv. ring.
Qed.

(** X9. The order of set-up. A set-up that returns has, in this order:
    selected the ABI, issued its ring requests (the first one for the
    layout of the calculator), printed its report if verbose, mapped exactly
    the mapped length, built the frame table (one entry per block of the
    block size on the newer ABI, per frame of the frame size on the older),
    bound the ring for receive and prepared polling. *)
Theorem ring_rx_setup_sequence size ifindex v3 jumbo verbose w r' w' :
  ring_rx_setup E size ifindex v3 jumbo verbose w = Done r' w' ->
  exists retries,
    let abi := v3_in_use E v3 in
    let ls := get_ring_layout_size E abi in
    trace w' =
    trace w
    ++ EvSetVersion (if v3 then TPACKET_V3 else TPACKET_V2)
    :: EvRxRing (raw_prefix (rx_layout E (raw zero_ring) size jumbo v3) ls) ls
    :: retries
    ++ (if verbose then [EvPrint (rx_ring_line abi r')] else [])
    ++ [EvMmap (mm_len r');
        EvFrameTable (fst (frame_table_shape abi (raw r')))
                     (snd (frame_table_shape abi (raw r')));
        EvBind ifindex false; EvPoll] /\
    forallb is_rx_ring_request retries = true.
Proof.
  intros Hrun. pose proof Hrun as Hgeo. apply ring_rx_setup_geometry in Hgeo.
  destruct Hgeo as (_ & _ & _ & _ & _ & _ & Hlen & _).
  apply ring_rx_setup_Done in Hrun.
  destruct Hrun as (r2 & w2 & addr & _ & Hcreate & _ & Hr' & _ & Htrace & _).
  apply create_rx_ring_trace in Hcreate.
  destruct Hcreate as (rest & Ht2 & Hrest). cbn zeta in Ht2.
  rewrite tpacket_v3_active_selected in Ht2.
  exists rest. cbn zeta. split; [|exact Hrest].
  rewrite Htrace, Ht2, Hlen. subst r'.
  unfold abi_selected, log, rx_ring_line. simpl.
  rewrite <- !app_assoc. simpl. rewrite <- !app_assoc. reflexivity.
Qed.

(** X10. A budget below one block. The calculator then asks for 0 blocks
    and 0 frames, and set-up has no check of its own against that: unless
    [ring_verify_layout] rejects the layout, it issues a single ring request
    for 0 blocks (never a retry, whatever [errno] is), fatal if refused, and
    then asks [mmap] for 0 bytes. Where [mmap] refuses a length of 0 the
    set-up ends there, fatally; where it does not, the set-up goes on to an
    empty ring of mapped length 0. *)
Theorem ring_rx_setup_small_budget (size ifindex : Z)
        (v3 jumbo verbose : bool) (w : world) :
  0 <= size < rx_block_size E jumbo ->
  let abi := v3_in_use E v3 in
  let ls := get_ring_layout_size E abi in
  let q := rx_layout E (raw zero_ring) size jumbo v3 in
  let w0 := abi_selected v3 w in
  let w1 := rx_ring_world E q ls w0 in
  let w2 :=
    log (EvMmap 0)
        (if verbose
         then log (EvPrint (rx_ring_line abi (mk_ring 0 0 0 q))) w1
         else w1) in
  let w3 :=
    log (EvBind ifindex false)
        (log (EvFrameTable (fst (frame_table_shape abi q))
                           (snd (frame_table_shape abi q))) w2) in
  tp_block_nr q = 0 /\ tp_frame_nr q = 0 /\
  ring_rx_setup E size ifindex v3 jumbo verbose w =
  if ring_verify_layout_ok E q then
    if rx_ring_rc E q ls w0 <? 0
    then Stop (Panic "Cannot allocate RX_RING!") w1
    else
      match mmap_reply E 0 with
      | None => Stop (Panic "Cannot mmap {TX,RX}_RING!") w2
      | Some addr =>
          match bind_reply E with
          | SysOk => Done (mk_ring (frames_addr E) addr 0 q) (log EvPoll w3)
          | SysErr _ => Stop (Panic "Cannot bind {TX,RX}_RING!") w3
          end
      end
  else Stop (Panic "ring_verify_layout") w0.
Proof.
  intros Hsmall. cbn zeta.
  assert (Hbn : tp_block_nr (rx_layout E (raw zero_ring) size jumbo v3) = 0).
  { rewrite rx_layout_block_nr, Z.div_small by exact Hsmall. reflexivity. }
  assert (Hfn : tp_frame_nr (rx_layout E (raw zero_ring) size jumbo v3) = 0).
  { rewrite rx_layout_frame_nr, (Z.div_small size) by exact Hsmall.
    change (wrap32 0) with 0. rewrite Z.mul_0_r. reflexivity. }
  split; [exact Hbn|]. split; [exact Hfn|].
  unfold ring_rx_setup, bind. rewrite setup_rx_ring_layout_run.
  replace (rx_block_size E jumbo =? 0) with false
    by (symmetry; apply Z.eqb_neq; lia).
  cbn zeta.
  remember (rx_layout E (raw zero_ring) size jumbo v3) as q eqn:Hq.
  clear Hq.
  destruct (ring_verify_layout_ok E q); [|reflexivity].
  rewrite create_rx_ring_run. cbn zeta.
  rewrite tpacket_v3_active_selected.
  rewrite create_rx_ring_retry_leave
    by (right; unfold set_raw; cbn [raw]; rewrite Hbn; lia).
  unfold set_raw at 1 2 3. cbn [raw].
  destruct (rx_ring_rc E q _ _ <? 0); [reflexivity|].
  unfold mmap_ring_generic, bind, emit.
  unfold set_mm_len, set_raw. cbn [raw tp_block_nr tp_block_size mm_len
                                   frames mm_space zero_ring].
  rewrite Hbn, Z.mul_0_r. change (wrap64 0) with 0.
  destruct (mmap_reply E 0) as [addr|];
    [|destruct verbose; reflexivity].
  unfold alloc_rx_ring_frames, alloc_ring_frames_generic, bind_ring_generic,
    prepare_polling, bind, emit, ret, panic.
  rewrite is_tpacket_v3_run.
  assert (Hv : forall l, tpacket_v3_active E
                 (log (EvMmap 0)
                      (if verbose then log l
                                         (rx_ring_world E q
                                            (get_ring_layout_size E (v3_in_use E v3))
                                            (abi_selected v3 w))
                       else rx_ring_world E q
                              (get_ring_layout_size E (v3_in_use E v3))
                              (abi_selected v3 w)))
               = v3_in_use E v3).
  { intros l. rewrite <- (tpacket_v3_active_selected v3 w).
    destruct verbose; reflexivity. }
  rewrite Hv. unfold frame_table_shape, set_mm_space, set_frames.
  cbn [raw frames mm_space mm_len].
  destruct (bind_reply E); destruct (v3_in_use E v3); reflexivity.
Qed.

(** X11. Teardown releases what set-up acquired. After a set-up that
    returned, [destroy_rx_ring] (whenever it is called) first unmaps the
    address [mmap] returned, over the length that was mapped, and then
    hands [xfree] the frame table that was allocated. *)
Theorem destroy_rx_ring_after_setup size ifindex v3 jumbo verbose w r' w' w2 :
  ring_rx_setup E size ifindex v3 jumbo verbose w = Done r' w' ->
  exists addr rest,
    mmap_reply E (mm_len r') = Some addr /\
    In (EvMmap (mm_len r')) (trace w') /\
    trace (world_of (destroy_rx_ring E r' w2)) =
    trace w2 ++ EvMunmap addr (mm_len r') :: EvXfree (frames_addr E) :: rest.
Proof.
  intros Hrun. pose proof Hrun as Hgeo. apply ring_rx_setup_geometry in Hgeo.
  destruct Hgeo as (_ & _ & _ & _ & _ & _ & Hlen & _).
  apply ring_rx_setup_Done in Hrun.
  destruct Hrun as (r2 & w2' & addr & _ & _ & Hmap & Hr' & _ & Htrace & _).
  subst r'. simpl in *. rewrite <- Hlen in Hmap, Htrace.
  exists addr.
  rewrite destroy_rx_ring_run. cbn zeta. simpl.
  destruct (xfree_func E (frames_addr E)) as [p|];
    [destruct (tpacket_v3_active E w2);
     [|destruct (rx_ring_reply E (rx_ring_calls w2) [0; 0; 0; 0])]|];
    unfold rx_ring_world, log; simpl; rewrite <- ?app_assoc; simpl;
    eexists; (split; [exact Hmap|]);
    (split; [rewrite Htrace; apply in_or_app; right; left; reflexivity
            | reflexivity]).
Qed.

(** X12. The calculator uses the budget up to less than one block. As long as
    16 pages fit 32 bits and the block count fits its field, the layout it
    returns covers at most the budget and misses less than one block of it. *)
Theorem setup_rx_ring_layout_uses_budget r size jumbo v3 w r' w' :
  0 < RUNTIME_PAGE_SIZE E ->
  16 * RUNTIME_PAGE_SIZE E < 2 ^ 32 ->
  0 <= size ->
  size / rx_block_size E jumbo < 2 ^ 32 ->
  setup_rx_ring_layout E r size jumbo v3 w = Done r' w' ->
  size - tp_block_size (raw r')
  < tp_block_size (raw r') * tp_block_nr (raw r') <= size.
Proof.
  intros Hpos Hfit16 Hsize Hfit Hrun.
  apply setup_rx_ring_layout_fields in Hrun. destruct Hrun as [-> _].
  simpl. rewrite rx_layout_block_size, rx_layout_block_nr.
  assert (Hbs : 0 < rx_block_size E jumbo).
  { rewrite rx_block_size_value by assumption. destruct jumbo; lia. }
  rewrite wrap32_small by (split; [apply Z.div_pos; lia | assumption]).
  pose proof (Z.mul_div_le size _ Hbs).
  pose proof (Z.mul_succ_div_gt size _ Hbs). lia.
Qed.

(** ** More on the layout and the frame table *)

Lemma to_int32_small z : 0 <= z < 2 ^ 31 -> to_int32 z = z.
Proof.
  intros H. unfold to_int32. rewrite wrap32_small by lia.
  destruct (z <? 2 ^ 31) eqn:Hlt; [reflexivity|].
  apply Z.ltb_ge in Hlt. lia.
Qed.

Lemma to_int32_large z : 2 ^ 31 <= z < 2 ^ 32 -> to_int32 z = z - 2 ^ 32.
Proof.
  intros H. unfold to_int32. rewrite wrap32_small by lia.
  destruct (z <? 2 ^ 31) eqn:Hlt; [|reflexivity].
  apply Z.ltb_lt in Hlt. lia.
Qed.

(** X17. A larger budget never buys fewer blocks. As long as 16 pages fit 32
    bits and the larger quotient fits the block count field, the calculator
    gives the larger of two budgets at least as many blocks, of the same
    size. *)
Theorem setup_rx_ring_layout_monotone r size1 size2 jumbo v3 w r1 w1 r2 w2 :
  0 < RUNTIME_PAGE_SIZE E ->
  16 * RUNTIME_PAGE_SIZE E < 2 ^ 32 ->
  0 <= size1 <= size2 ->
  size2 / rx_block_size E jumbo < 2 ^ 32 ->
  setup_rx_ring_layout E r size1 jumbo v3 w = Done r1 w1 ->
  setup_rx_ring_layout E r size2 jumbo v3 w = Done r2 w2 ->
  tp_block_size (raw r1) = tp_block_size (raw r2) /\
  tp_block_nr (raw r1) <= tp_block_nr (raw r2).
Proof.
  intros Hpos Hfit16 Hsizes Hfit H1 H2.
  apply setup_rx_ring_layout_fields in H1. destruct H1 as [-> _].
  apply setup_rx_ring_layout_fields in H2. destruct H2 as [-> _].
  simpl. rewrite !rx_layout_block_size, !rx_layout_block_nr.
  split; [reflexivity|].
  assert (Hbs : 0 < rx_block_size E jumbo).
  { rewrite rx_block_size_value by assumption. destruct jumbo; lia. }
  assert (Hle : size1 / rx_block_size E jumbo <= size2 / rx_block_size E jumbo)
    by (apply Z.div_le_mono; lia).
  assert (0 <= size1 / rx_block_size E jumbo) by (apply Z.div_pos; lia).
  rewrite !wrap32_small by lia. exact Hle.
Qed.

(** X18. The count of the frame table goes through an [int]. The frame table
    is asked for with (block count, block size) on the newer ABI and with
    (frame count, frame size) on the older; a count below 2^31 arrives as
    it is, a count from 2^31 on arrives negative, as count - 2^32. *)
Theorem alloc_rx_ring_frames_count r w :
  let v3 := tpacket_v3_active E w in
  let count := if v3 then tp_block_nr (raw r) else tp_frame_nr (raw r) in
  let unit := if v3 then tp_block_size (raw r) else tp_frame_size (raw r) in
  (0 <= count < 2 ^ 31 ->
   alloc_rx_ring_frames E r w =
   Done (set_frames r (frames_addr E)) (log (EvFrameTable count unit) w)) /\
  (2 ^ 31 <= count < 2 ^ 32 ->
   alloc_rx_ring_frames E r w =
   Done (set_frames r (frames_addr E))
        (log (EvFrameTable (count - 2 ^ 32) unit) w)).
Proof.
  cbn zeta. unfold alloc_rx_ring_frames, bind. rewrite is_tpacket_v3_run.
  unfold alloc_ring_frames_generic, bind, emit, ret.
  split; intros Hcount.
  - rewrite to_int32_small by exact Hcount. reflexivity.
  - rewrite to_int32_large by exact Hcount. reflexivity.
Qed.

(** X13. What the kernel is asked first. In a set-up that returns, the first
    ring request carries the layout of the calculator: on the newer ABI 28
    bytes, the four geometry words followed by the retire timeout 100 and
    two zero words; on the older ABI 16 bytes, the geometry words alone. *)
Theorem ring_rx_setup_first_request size ifindex v3 jumbo verbose w r' w' :
  ring_rx_setup E size ifindex v3 jumbo verbose w = Done r' w' ->
  let bs := rx_block_size E jumbo in
  let fs := rx_frame_size jumbo in
  let bn := wrap32 (size / bs) in
  let fn := wrap32 (bs / fs * bn) in
  exists rest,
    trace w' =
    trace w
    ++ EvSetVersion (if v3 then TPACKET_V3 else TPACKET_V2)
    :: (if v3_in_use E v3
        then EvRxRing [bs; bn; fs; fn; 100; 0; 0] sizeof_tpacket_req3
        else EvRxRing [bs; bn; fs; fn] sizeof_tpacket_req)
    :: rest.
Proof.
  intros Hrun. cbn zeta. apply ring_rx_setup_Done in Hrun.
  destruct Hrun as (r2 & w2 & addr & _ & Hcreate & _ & _ & _ & Htrace & _).
  apply create_rx_ring_trace in Hcreate.
  destruct Hcreate as (rest & Ht2 & _). cbn zeta in Ht2.
  rewrite tpacket_v3_active_selected in Ht2.
  unfold set_raw in Ht2. cbn [raw] in Ht2.
  assert (Hreq :
    EvRxRing (raw_prefix (rx_layout E (raw zero_ring) size jumbo v3)
                         (get_ring_layout_size E (v3_in_use E v3)))
             (get_ring_layout_size E (v3_in_use E v3))
    = if v3_in_use E v3
      then EvRxRing [rx_block_size E jumbo;
                     wrap32 (size / rx_block_size E jumbo);
                     rx_frame_size jumbo;
                     wrap32 (rx_block_size E jumbo / rx_frame_size jumbo
                             * wrap32 (size / rx_block_size E jumbo));
                     100; 0; 0] sizeof_tpacket_req3
      else EvRxRing [rx_block_size E jumbo;
                     wrap32 (size / rx_block_size E jumbo);
                     rx_frame_size jumbo;
                     wrap32 (rx_block_size E jumbo / rx_frame_size jumbo
                             * wrap32 (size / rx_block_size E jumbo))]
                    sizeof_tpacket_req).
  { unfold v3_in_use, get_ring_layout_size, rx_layout.
    destruct (HAVE_TPACKET3 E), v3; reflexivity. }
  rewrite Hreq in Ht2. rewrite Htrace, Ht2.
  unfold abi_selected, log. cbn [trace].
  rewrite <- !app_assoc. cbn [app].
  eexists. reflexivity.
Qed.

(** ** More on the statistics *)

(** X14. On the older ABI the count of the consumer plays no part: the report
    is the same whatever [seen] is. *)
Theorem sock_rx_net_stats_older_abi_ignores_seen seen seen' w :
  tpacket_v3_active E w = false ->
  sock_rx_net_stats E seen w = sock_rx_net_stats E seen' w.
Proof.
  intros Hv2. rewrite !sock_rx_net_stats_run. cbn zeta. rewrite Hv2.
  reflexivity.
Qed.

(** X15. On the newer ABI the incoming line shows the count of the consumer,
    and as long as the consumer has seen no more than the kernel counted,
    incoming plus unread is the kernel total. *)
Theorem sock_rx_net_stats_newer_abi_backlog seen w total dropped :
  tpacket_v3_active E w = true ->
  stats_reply_of E = StatsOk total dropped ->
  0 <= total < 2 ^ 32 ->
  0 <= seen <= total ->
  exists w' rest,
    sock_rx_net_stats E seen w = Done tt w' /\
    printed (trace w') =
    printed (trace w) ++ LineIncoming seen (total - seen) :: rest.
Proof.
  intros Hv3 Hreply Ht Hseen.
  rewrite sock_rx_net_stats_run. cbn zeta. rewrite Hreply, Hv3.
  rewrite (counter_as_u64 total) by assumption.
  rewrite (wrap64_small seen) by lia.
  rewrite (wrap64_small (total - seen)) by lia.
  eexists. eexists. split; [reflexivity|].
  cbn [trace]. rewrite printed_app. reflexivity.
Qed.

(** X16. The passed-filter figure wraps as well. Should the kernel report more
    drops than packets, the line shows [2^64 - (dropped - total)]. *)
Theorem sock_rx_net_stats_passed_wraps seen w total dropped :
  stats_reply_of E = StatsOk total dropped ->
  0 <= total < dropped ->
  dropped < 2 ^ 32 ->
  exists w',
    sock_rx_net_stats E seen w = Done tt w' /\
    In (LinePassed (2 ^ 64 - (dropped - total))) (printed (trace w')).
Proof.
  intros Hreply Ht Hd.
  assert (Hwrap : wrap64 (total - dropped) = 2 ^ 64 - (dropped - total)).
  { unfold wrap64. symmetry. apply Z.mod_unique with (q := -1); lia. }
  rewrite sock_rx_net_stats_run. cbn zeta. rewrite Hreply.
  rewrite !counter_as_u64 by lia.
  eexists. split; [reflexivity|].
  cbn [trace]. rewrite printed_app. apply in_or_app. right.
  cbn [printed]. right. left. rewrite Hwrap. reflexivity.
Qed.

End Properties.

(** * The theorems at work on the test bench *)

(** C1. The source degrades on [errno == ENOMEM] without looking at what the
    request returned, and a request that succeeds leaves [errno] alone. So
    with eight blocks asked for and a kernel that is out of memory for the
    first request only (k = 1), the allocator does not settle for 8 / 2^1 = 4
    blocks: it halves after each granted request as well and ends, four
    requests later, with a single block. *)
Theorem create_rx_ring_enomem_once :
  create_rx_ring (bench enomem_once (StatsOk 0 0) xfree_plain)
                 ring8 false (fresh_world TPACKET_V2)
  = Done (mk_ring 0 0 16384 (mk_req 16384 1 2048 8 0 0 0))
         (mk_world ENOMEM TPACKET_V2 4
            [EvRxRing [16384; 8; 2048; 64] 16;
             EvRxRing [16384; 4; 2048; 32] 16;
             EvRxRing [16384; 2; 2048; 16] 16;
             EvRxRing [16384; 1; 2048; 8] 16]).
Proof. vm_compute. reflexivity. Qed.

(** With a kernel that never runs out of memory and a clean [errno], the
    same eight blocks are granted at the first request. *)
Example create_rx_ring_no_pressure :
  create_rx_ring (bench always_ok (StatsOk 0 0) xfree_plain)
                 ring8 false (fresh_world TPACKET_V2)
  = Done (mk_ring 0 0 131072 (mk_req 16384 8 2048 64 0 0 0))
         (mk_world 0 TPACKET_V2 1 [EvRxRing [16384; 8; 2048; 64] 16]).
Proof. vm_compute. reflexivity. Qed.

(** A kernel that stays out of memory: three halvings, then the fatal exit
    at one block, after four requests. *)
Example create_rx_ring_no_memory :
  create_rx_ring (bench always_enomem (StatsOk 0 0) xfree_plain)
                 ring8 false (fresh_world TPACKET_V2)
  = Stop (Panic "Cannot allocate RX_RING!")
         (mk_world ENOMEM TPACKET_V2 4
            [EvRxRing [16384; 8; 2048; 64] 16;
             EvRxRing [16384; 4; 2048; 32] 16;
             EvRxRing [16384; 2; 2048; 16] 16;
             EvRxRing [16384; 1; 2048; 8] 16]).
Proof. vm_compute. reflexivity. Qed.

(** A set-up of eight blocks under memory pressure: it returns, and the
    mapped length is the block size times the block count left. *)
Lemma ring_rx_setup_mm_len_witness :
  exists r' w',
    ring_rx_setup (bench enomem_once (StatsOk 0 0) xfree_plain)
                  131072 3 false false true (fresh_world 0) = Done r' w' /\
    mm_len r' = tp_block_size (raw r') * tp_block_nr (raw r').
Proof.
  eexists. eexists. split; [vm_compute; reflexivity|].
  eapply (ring_rx_setup_mm_len (bench enomem_once (StatsOk 0 0) xfree_plain)
            131072 3 false false true (fresh_world 0)).
  vm_compute. reflexivity.
Defined.

(** 4 KiB pages are among the page sizes covered. *)
Lemma page_size_ok_4096 : page_size_ok 4096.
Proof.
  split; [reflexivity|]. split; [exists 1; reflexivity | reflexivity].
Defined.

(** C3 as stated fails: the block count field has 32 bits, so for a budget
    of 2^46 bytes and blocks of 2^14 the quotient 2^32 is stored as 0; and
    for a budget of 2^43 the frame count 2^32 is stored as 0 while the
    block count is 2^29. *)
Lemma setup_rx_ring_layout_wraps :
  (exists r' w',
      setup_rx_ring_layout (bench always_ok (StatsOk 0 0) xfree_plain)
                           zero_ring (2 ^ 46) false false (fresh_world 0)
      = Done r' w' /\
      tp_block_nr (raw r') <> 2 ^ 46 / tp_block_size (raw r')) /\
  (exists r' w',
      setup_rx_ring_layout (bench always_ok (StatsOk 0 0) xfree_plain)
                           zero_ring (2 ^ 43) false false (fresh_world 0)
      = Done r' w' /\
      tp_frame_nr (raw r') * tp_frame_size (raw r')
      <> tp_block_size (raw r') * tp_block_nr (raw r')).
Proof.
  split; eexists; eexists; (split; [vm_compute; reflexivity|]);
    vm_compute; discriminate.
Qed.

(** The geometry for a budget of 128 KiB with jumbo support, newer ABI. *)
Lemma setup_rx_ring_layout_geometry_witness :
  setup_rx_ring_layout (bench always_ok (StatsOk 0 0) xfree_plain)
                       zero_ring 131072 true true (fresh_world 0)
  = Done (mk_ring 0 0 0 (mk_req 65536 2 65536 2 100 0 0))
         (mk_world 0 TPACKET_V3 0 [EvSetVersion TPACKET_V3]) /\
  (TPACKET_ALIGNMENT | 65536) /\
  65536 = 32 * Z.shiftl TPACKET_ALIGNMENT 7 /\
  2 = 131072 / 65536 /\
  2 * 65536 = 65536 * 2.
Proof.
  destruct (setup_rx_ring_layout_geometry
              (bench always_ok (StatsOk 0 0) xfree_plain)
              zero_ring 131072 true true (fresh_world 0)
              page_size_ok_4096 ltac:(lia))
    as (Hrun & Halign & Hfs & Hbn & Hfn).
  split; [exact Hrun|]. split; [exact Halign|]. split; [exact Hfs|].
  split; [apply Hbn | apply Hfn]; reflexivity.
Defined.

(** C4 as stated fails: with 4 KiB pages the jumbo block has 65536 bytes,
    the small one 16384; 65536 is not 16 times 16384. *)
Lemma jumbo_block_is_not_16_times :
  exists rs ws rj wj,
    setup_rx_ring_layout (bench always_ok (StatsOk 0 0) xfree_plain)
                         zero_ring 1048576 false false (fresh_world 0)
    = Done rs ws /\
    setup_rx_ring_layout (bench always_ok (StatsOk 0 0) xfree_plain)
                         zero_ring 1048576 true false (fresh_world 0)
    = Done rj wj /\
    tp_block_size (raw rj) <> 16 * tp_block_size (raw rs).
Proof.
  do 4 eexists. split; [vm_compute; reflexivity|].
  split; [vm_compute; reflexivity|]. vm_compute. discriminate.
Qed.

(** Both block sizes for a budget of 1 MiB on 4 KiB pages. *)
Lemma setup_rx_ring_layout_block_size_witness :
  setup_rx_ring_layout (bench always_ok (StatsOk 0 0) xfree_plain)
                       zero_ring 1048576 false false (fresh_world 0)
  = Done (mk_ring 0 0 0 (mk_req 16384 64 2048 512 0 0 0))
         (mk_world 0 TPACKET_V2 0 [EvSetVersion TPACKET_V2]) /\
  setup_rx_ring_layout (bench always_ok (StatsOk 0 0) xfree_plain)
                       zero_ring 1048576 true false (fresh_world 0)
  = Done (mk_ring 0 0 0 (mk_req 65536 16 65536 16 0 0 0))
         (mk_world 0 TPACKET_V2 0 [EvSetVersion TPACKET_V2]) /\
  16384 = 2 ^ 2 * 4096 /\
  65536 = 2 ^ 4 * 4096 /\
  65536 = 4 * 16384.
Proof.
  apply (setup_rx_ring_layout_block_size
           (bench always_ok (StatsOk 0 0) xfree_plain)
           zero_ring 1048576 false (fresh_world 0));
    reflexivity.
Defined.

(** A request that returns 0 while [errno] still holds ENOMEM from earlier
    is followed by a request for half the blocks. *)
Lemma create_rx_ring_retry_on_errno_alone_witness :
  rx_ring_rc (bench always_ok (StatsOk 0 0) xfree_plain) (raw ring8) 16
             (mk_world ENOMEM TPACKET_V2 0 []) = 0 /\
  create_rx_ring_retry (bench always_ok (StatsOk 0 0) xfree_plain) 16 ring8
                       (mk_world ENOMEM TPACKET_V2 0 [])
  = create_rx_ring_retry (bench always_ok (StatsOk 0 0) xfree_plain) 16
      (mk_ring 0 0 0 (mk_req 16384 4 2048 32 0 0 0))
      (mk_world ENOMEM TPACKET_V2 1 [EvRxRing [16384; 8; 2048; 64] 16]).
Proof.
  split; [reflexivity|].
  apply (create_rx_ring_retry_on_errno_alone
           (bench always_ok (StatsOk 0 0) xfree_plain) 16 ring8
           (mk_world ENOMEM TPACKET_V2 0 []));
    [reflexivity | reflexivity | discriminate].
Defined.

(** Teardown of the same mapped ring on the newer and on the older ABI. *)
Lemma destroy_rx_ring_asymmetric_witness :
  destroy_rx_ring (bench always_ok (StatsOk 0 0) xfree_plain)
                  mapped_ring (fresh_world TPACKET_V3)
  = Done (mk_ring 4198400 1048576 0 (mk_req 16384 2 2048 16 0 0 0))
         (mk_world 0 TPACKET_V3 0
            [EvMunmap 1048576 32768; EvXfree 4198400]) /\
  destroy_rx_ring (bench always_ok (StatsOk 0 0) xfree_plain)
                  mapped_ring (fresh_world TPACKET_V2)
  = Done (mk_ring 4198400 1048576 0 (mk_req 0 0 0 0 0 0 0))
         (mk_world 0 TPACKET_V2 1
            [EvMunmap 1048576 32768; EvXfree 4198400;
             EvRxRing [0; 0; 0; 0] 16]).
Proof.
  split.
  - apply (proj1 (destroy_rx_ring_asymmetric
                    (bench always_ok (StatsOk 0 0) xfree_plain)
                    mapped_ring (fresh_world TPACKET_V3) 4198400 eq_refl)).
    reflexivity.
  - apply (proj2 (destroy_rx_ring_asymmetric
                    (bench always_ok (StatsOk 0 0) xfree_plain)
                    mapped_ring (fresh_world TPACKET_V2) 4198400 eq_refl)).
    reflexivity.
Defined.

(** On the older ABI a failing reconfiguration is fatal. *)
Example destroy_rx_ring_v2_fatal :
  destroy_rx_ring (bench always_enomem (StatsOk 0 0) xfree_plain)
                  mapped_ring (fresh_world TPACKET_V2)
  = Stop (Panic "Cannot destroy the RX_RING: %s!")
         (mk_world ENOMEM TPACKET_V2 1
            [EvMunmap 1048576 32768; EvXfree 4198400;
             EvRxRing [0; 0; 0; 0] 16]).
Proof. vm_compute. reflexivity. Qed.

(** C6 as stated fails. If [xfree] is a plain function, the second teardown
    hands it the pointer to the frame table a second time; if [xfree] is a
    macro that refuses NULL and resets the pointer, the second teardown does
    not return. *)
Lemma second_teardown_not_harmless :
  ~ second_teardown_harmless (bench always_ok (StatsOk 0 0) xfree_plain)
      mapped_ring (fresh_world TPACKET_V3) /\
  ~ second_teardown_harmless (bench always_ok (StatsOk 0 0) xfree_resetting)
      mapped_ring (fresh_world TPACKET_V3).
Proof.
  split; intros H; specialize (H _ _ eq_refl);
    destruct H as (r2 & w2 & again & Hrun & _ & Hfreed & Hnot).
  - vm_compute in Hrun. injection Hrun as <- <-.
    vm_compute in Hfreed. injection Hfreed as <-.
    apply Hnot. left. reflexivity.
  - vm_compute in Hrun. discriminate Hrun.
Qed.

(** The two runs in full. *)
Example destroy_rx_ring_twice_plain :
  destroy_rx_ring_twice (bench always_ok (StatsOk 0 0) xfree_plain)
                        mapped_ring (fresh_world TPACKET_V3)
  = Done (mk_ring 4198400 1048576 0 (mk_req 16384 2 2048 16 0 0 0))
         (mk_world 0 TPACKET_V3 0
            [EvMunmap 1048576 32768; EvXfree 4198400;
             EvMunmap 1048576 0; EvXfree 4198400]).
Proof. vm_compute. reflexivity. Qed.

Example destroy_rx_ring_twice_resetting :
  destroy_rx_ring_twice (bench always_ok (StatsOk 0 0) xfree_resetting)
                        mapped_ring (fresh_world TPACKET_V3)
  = Stop (Panic "xfree")
         (mk_world 0 TPACKET_V3 0
            [EvMunmap 1048576 32768; EvXfree 4198400;
             EvMunmap 1048576 0; EvXfree 0]).
Proof. vm_compute. reflexivity. Qed.

(** A second teardown on the older ABI: no byte unmapped, [xfree] called
    once more. *)
Lemma destroy_rx_ring_again_witness :
  exists r1 w1,
    destroy_rx_ring (bench always_ok (StatsOk 0 0) xfree_plain)
                    mapped_ring (fresh_world TPACKET_V2) = Done r1 w1 /\
    mm_len r1 = 0 /\
    unmapped_bytes
      (trace (world_of (destroy_rx_ring
                          (bench always_ok (StatsOk 0 0) xfree_plain) r1 w1)))
    = unmapped_bytes (trace w1) /\
    freed
      (trace (world_of (destroy_rx_ring
                          (bench always_ok (StatsOk 0 0) xfree_plain) r1 w1)))
    = freed (trace w1) ++ [frames r1].
Proof.
  eexists. eexists. split; [vm_compute; reflexivity|].
  destruct (destroy_rx_ring_again
              (bench always_ok (StatsOk 0 0) xfree_plain)
              mapped_ring (fresh_world TPACKET_V2) _ _ eq_refl)
    as (Hlen & _ & _ & Hunmap & Hfreed).
  split; [exact Hlen|]. split; [exact Hunmap | exact Hfreed].
Defined.

(** 1000 packets of which 50 dropped: 950 passed, and a drop rate of
    exactly 5.0, shown as 5.0000. *)
Lemma sock_rx_net_stats_report_witness :
  exists w',
    sock_rx_net_stats (bench always_ok (StatsOk 1000 50) xfree_plain)
                      0 (fresh_world TPACKET_V2) = Done tt w' /\
    printed (trace w') =
    [LineIncoming 1000 0; LinePassed 950; LineFailed 50; LineDroprate 5%float]
    /\ fixed4 5%float = Some 50000.
Proof.
  destruct (sock_rx_net_stats_report
              (bench always_ok (StatsOk 1000 50) xfree_plain)
              0 (fresh_world TPACKET_V2) 1000 50 eq_refl
              ltac:(lia) ltac:(lia))
    as [[w' [Hrun Hprinted]] _].
  exists w'. split; [exact Hrun|].
  rewrite Hprinted. split; vm_compute; reflexivity.
Defined.

(** No packet at all: three lines, no drop rate. *)
Example sock_rx_net_stats_no_packets :
  sock_rx_net_stats (bench always_ok (StatsOk 0 0) xfree_plain)
                    0 (fresh_world TPACKET_V2)
  = Done tt (mk_world 0 TPACKET_V2 0
               [EvGetStats 8; EvPrint (LineIncoming 0 0);
                EvPrint (LinePassed 0); EvPrint (LineFailed 0)]).
Proof. vm_compute. reflexivity. Qed.

(** A failing query on the newer ABI: one call, no line. *)
Lemma sock_rx_net_stats_query_failure_witness :
  exists w',
    sock_rx_net_stats (bench always_ok (StatsErr 9) xfree_plain)
                      7 (fresh_world TPACKET_V3) = Done tt w' /\
    printed (trace w') = [] /\
    trace w' = [EvGetStats 12].
Proof.
  destruct (sock_rx_net_stats_query_failure
              (bench always_ok (StatsErr 9) xfree_plain)
              7 (fresh_world TPACKET_V3) 9 eq_refl)
    as (w' & Hrun & Hprinted & Htrace & _).
  exists w'. split; [exact Hrun|]. split; [exact Hprinted | exact Htrace].
Defined.

(** The consumer saw 12 packets, the kernel counted 10: the backlog shown
    is 2^64 - 2. *)
Lemma sock_rx_net_stats_backlog_wraps_witness :
  exists w' rest,
    sock_rx_net_stats (bench always_ok (StatsOk 10 0) xfree_plain)
                      12 (fresh_world TPACKET_V3) = Done tt w' /\
    printed (trace w') = LineIncoming 12 18446744073709551614 :: rest.
Proof.
  destruct (sock_rx_net_stats_backlog_wraps
              (bench always_ok (StatsOk 10 0) xfree_plain)
              12 (fresh_world TPACKET_V3) 10 0 eq_refl eq_refl
              ltac:(lia) ltac:(lia))
    as (w' & rest & Hrun & Hprinted & _).
  exists w', rest. split; [exact Hrun | exact Hprinted].
Defined.

(** * The further theorems on the test bench *)

(** A request refused with EPERM: fatal at once, with eight blocks left. *)
Lemma create_rx_ring_fatal_unless_enomem_witness :
  create_rx_ring closed_bench ring8 false (fresh_world TPACKET_V2)
  = Stop (Panic "Cannot allocate RX_RING!")
         (mk_world EPERM TPACKET_V2 1 [EvRxRing [16384; 8; 2048; 64] 16]).
Proof.
  apply (create_rx_ring_fatal_unless_enomem closed_bench ring8 false
           (fresh_world TPACKET_V2) EPERM);
    [reflexivity | left; discriminate].
Defined.

(** Eight blocks granted at once. *)
Lemma create_rx_ring_first_grant_witness :
  exists w',
    create_rx_ring quiet_bench ring8 true (fresh_world TPACKET_V2)
    = Done (mk_ring 0 0 131072 (mk_req 16384 8 2048 64 0 0 0)) w' /\
    rx_ring_calls w' = 1%nat /\ errno w' = 0.
Proof.
  apply (create_rx_ring_first_grant quiet_bench ring8 true
           (fresh_world TPACKET_V2));
    [discriminate | reflexivity].
Defined.

(** Eight blocks and a kernel that stays out of memory: four requests. *)
Lemma create_rx_ring_request_bound_witness :
  (0 < rx_ring_calls
         (world_of (create_rx_ring
                      (bench always_enomem (StatsOk 0 0) xfree_plain)
                      ring8 false (fresh_world TPACKET_V2)))
   <= 4)%nat.
Proof.
  apply (create_rx_ring_request_bound
           (bench always_enomem (StatsOk 0 0) xfree_plain)
           ring8 false (fresh_world TPACKET_V2));
    [discriminate | simpl; lia].
Defined.

(** Eight blocks under pressure: four requests, 8 / 2^3 = 1 block. *)
Lemma create_rx_ring_halves_per_retry_witness :
  exists r' w',
    create_rx_ring tight_bench ring8 false (fresh_world TPACKET_V2)
    = Done r' w' /\
    rx_ring_calls w' = 4%nat /\
    tp_block_nr (raw r') = 8 / 2 ^ 3 /\
    tp_frame_nr (raw r') = wrap32 (16384 / 2048 * 1).
Proof.
  eexists. eexists. split; [vm_compute; reflexivity|].
  destruct (create_rx_ring_halves_per_retry tight_bench ring8 false
              (fresh_world TPACKET_V2) _ _ eq_refl)
    as (_ & Hbn & _ & _ & _ & _ & Hfn).
  split; [reflexivity|]. split; [exact Hbn|].
  apply Hfn. discriminate.
Defined.

(** One ENOMEM, then grants: one block is left of eight. *)
Lemma create_rx_ring_collapses_after_enomem_witness :
  exists r' w',
    create_rx_ring tight_bench ring8 false (fresh_world TPACKET_V2)
    = Done r' w' /\
    tp_block_nr (raw r') = 1 /\ mm_len r' = 16384.
Proof.
  apply (create_rx_ring_collapses_after_enomem tight_bench 0 ring8 false
           (fresh_world TPACKET_V2)).
  - intros i ws Hi. destruct i; [reflexivity | lia].
  - intros n ws Hn. destruct n; [simpl in Hn; lia | reflexivity].
  - simpl. lia.
  - discriminate.
Defined.

(** The verbose report on the newer ABI. *)
Lemma create_rx_ring_report_witness :
  exists r' w',
    create_rx_ring quiet_bench ring8 true (fresh_world TPACKET_V3)
    = Done r' w' /\
    printed (trace w') = [LineRxV3 131072 8 16384].
Proof.
  eexists. eexists. split; [vm_compute; reflexivity|].
  exact (create_rx_ring_report quiet_bench ring8 true
           (fresh_world TPACKET_V3) _ _ eq_refl).
Defined.

(** A budget of 128 KiB and 5 bytes under pressure. *)
Lemma ring_rx_setup_within_budget_witness :
  exists r' w',
    ring_rx_setup tight_bench 131077 3 false false false (fresh_world 0)
    = Done r' w' /\
    0 <= mm_len r' <= 131077.
Proof.
  eexists. eexists. split; [vm_compute; reflexivity|].
  eapply (ring_rx_setup_within_budget tight_bench 131077 3 false false false
            (fresh_world 0));
    [lia | vm_compute; reflexivity].
Defined.

Lemma ring_rx_setup_frames_tile_witness :
  exists r' w',
    ring_rx_setup tight_bench 131072 3 false false false (fresh_world 0)
    = Done r' w' /\
    tp_frame_nr (raw r') * tp_frame_size (raw r') = mm_len r'.
Proof.
  eexists. eexists. split; [vm_compute; reflexivity|].
  eapply (proj2 (ring_rx_setup_frames_tile tight_bench 131072 3 false false
                   false (fresh_world 0) _ _ eq_refl));
    [exact page_size_ok_4096 | vm_compute; reflexivity].
Defined.

(** The whole trace of a verbose set-up on the newer ABI. *)
Lemma ring_rx_setup_sequence_witness :
  exists r' w',
    ring_rx_setup quiet_bench 131072 3 true false true (fresh_world 0)
    = Done r' w' /\
    trace w' =
    [EvSetVersion TPACKET_V3;
     EvRxRing [16384; 8; 2048; 64; 100; 0; 0] 28;
     EvPrint (LineRxV3 131072 8 16384);
     EvMmap 131072; EvFrameTable 8 16384; EvBind 3 false; EvPoll].
Proof.
  eexists. eexists. split; [vm_compute; reflexivity|].
  destruct (ring_rx_setup_sequence quiet_bench 131072 3 true false true
              (fresh_world 0) _ _ eq_refl) as (retries & Htrace & _).
  reflexivity.
Defined.

(** A budget of 100 bytes where [mmap] refuses a length of 0: one request
    for 0 blocks, then the fatal exit at [mmap]. *)
Lemma ring_rx_setup_small_budget_witness :
  ring_rx_setup linux_bench 100 3 false false false (fresh_world 0)
  = Stop (Panic "Cannot mmap {TX,RX}_RING!")
         (mk_world 0 TPACKET_V2 1
            [EvSetVersion TPACKET_V2; EvRxRing [16384; 0; 2048; 0] 16;
             EvMmap 0]).
Proof.
  destruct (ring_rx_setup_small_budget linux_bench 100 3 false false false
              (fresh_world 0))
    as (_ & _ & Hrun).
  - vm_compute. split; [discriminate | reflexivity].
  - exact Hrun.
Defined.

(** Set-up, then teardown right away. *)
Lemma destroy_rx_ring_after_setup_witness :
  exists r' w' rest,
    ring_rx_setup quiet_bench 131072 3 false false false (fresh_world 0)
    = Done r' w' /\
    trace (world_of (destroy_rx_ring quiet_bench r' w')) =
    trace w' ++ EvMunmap 1048576 131072 :: EvXfree 4198400 :: rest.
Proof.
  eexists. eexists.
  destruct (destroy_rx_ring_after_setup quiet_bench 131072 3 false false false
              (fresh_world 0) _ _
              (mk_world 0 TPACKET_V2 1
                 [EvSetVersion TPACKET_V2;
                  EvRxRing [16384; 8; 2048; 64] 16; EvMmap 131072;
                  EvFrameTable 64 2048; EvBind 3 false; EvPoll])
              eq_refl)
    as (addr & rest & Hmap & _ & Htrace).
  exists rest. split; [vm_compute; reflexivity|].
  vm_compute in Hmap. injection Hmap as <-. exact Htrace.
Defined.

(** A budget of 128 KiB and 5 bytes: eight blocks, 5 bytes unused. *)
Lemma setup_rx_ring_layout_uses_budget_witness :
  exists r' w',
    setup_rx_ring_layout quiet_bench zero_ring 131077 false false
                         (fresh_world 0) = Done r' w' /\
    131077 - 16384 < tp_block_size (raw r') * tp_block_nr (raw r') <= 131077.
Proof.
  eexists. eexists. split; [vm_compute; reflexivity|].
  exact (setup_rx_ring_layout_uses_budget quiet_bench zero_ring 131077 false
           false (fresh_world 0) _ _ eq_refl eq_refl ltac:(lia) eq_refl
           eq_refl).
Defined.

(** The first request of a jumbo set-up on the newer ABI. *)
Lemma ring_rx_setup_first_request_witness :
  exists r' w' rest,
    ring_rx_setup quiet_bench 131072 3 true true false (fresh_world 0)
    = Done r' w' /\
    trace w' =
    EvSetVersion TPACKET_V3
    :: EvRxRing [65536; 2; 65536; 2; 100; 0; 0] 28 :: rest.
Proof.
  eexists. eexists.
  destruct (ring_rx_setup_first_request quiet_bench 131072 3 true true false
              (fresh_world 0) _ _ eq_refl) as (rest & Htrace).
  exists rest. split; [vm_compute; reflexivity | exact Htrace].
Defined.

(** Older ABI: the same report for 7 and for 7000 packets seen. *)
Lemma sock_rx_net_stats_older_abi_ignores_seen_witness :
  sock_rx_net_stats (bench always_ok (StatsOk 1000 50) xfree_plain)
                    7 (fresh_world TPACKET_V2)
  = sock_rx_net_stats (bench always_ok (StatsOk 1000 50) xfree_plain)
                      7000 (fresh_world TPACKET_V2).
Proof.
  apply (sock_rx_net_stats_older_abi_ignores_seen
           (bench always_ok (StatsOk 1000 50) xfree_plain)).
  reflexivity.
Defined.

(** Newer ABI: 1000 counted, 990 seen, 10 unread. *)
Lemma sock_rx_net_stats_newer_abi_backlog_witness :
  exists w' rest,
    sock_rx_net_stats (bench always_ok (StatsOk 1000 50) xfree_plain)
                      990 (fresh_world TPACKET_V3) = Done tt w' /\
    printed (trace w') = LineIncoming 990 10 :: rest.
Proof.
  apply (sock_rx_net_stats_newer_abi_backlog
           (bench always_ok (StatsOk 1000 50) xfree_plain)
           990 (fresh_world TPACKET_V3) 1000 50);
    [reflexivity | reflexivity | lia | lia].
Defined.

(** 5 packets and 7 drops reported. *)
Lemma sock_rx_net_stats_passed_wraps_witness :
  exists w',
    sock_rx_net_stats (bench always_ok (StatsOk 5 7) xfree_plain)
                      0 (fresh_world TPACKET_V2) = Done tt w' /\
    In (LinePassed 18446744073709551614) (printed (trace w')).
Proof.
  apply (sock_rx_net_stats_passed_wraps
           (bench always_ok (StatsOk 5 7) xfree_plain)
           0 (fresh_world TPACKET_V2) 5 7);
    [reflexivity | lia | lia].
Defined.

(** Budgets of 100000 and 200000 bytes: 6 and 12 blocks of 16 KiB. *)
Lemma setup_rx_ring_layout_monotone_witness :
  exists r1 w1 r2 w2,
    setup_rx_ring_layout quiet_bench zero_ring 100000 false false
                         (fresh_world 0) = Done r1 w1 /\
    setup_rx_ring_layout quiet_bench zero_ring 200000 false false
                         (fresh_world 0) = Done r2 w2 /\
    tp_block_size (raw r1) = tp_block_size (raw r2) /\
    tp_block_nr (raw r1) <= tp_block_nr (raw r2).
Proof.
  do 4 eexists. split; [vm_compute; reflexivity|].
  split; [vm_compute; reflexivity|].
  exact (setup_rx_ring_layout_monotone quiet_bench zero_ring 100000 200000
           false false (fresh_world 0) _ _ _ _
           eq_refl eq_refl ltac:(lia) eq_refl eq_refl eq_refl).
Defined.

(** 64 frames on the older ABI; 2^31 blocks on the newer one. *)
Lemma alloc_rx_ring_frames_count_witness :
  alloc_rx_ring_frames quiet_bench ring8 (fresh_world TPACKET_V2)
  = Done (mk_ring 4198400 0 0 (mk_req 16384 8 2048 64 0 0 0))
         (mk_world 0 TPACKET_V2 0 [EvFrameTable 64 2048]) /\
  alloc_rx_ring_frames quiet_bench
    (mk_ring 0 0 0 (mk_req 16384 (2 ^ 31) 2048 0 0 0 0))
    (fresh_world TPACKET_V3)
  = Done (mk_ring 4198400 0 0 (mk_req 16384 (2 ^ 31) 2048 0 0 0 0))
         (mk_world 0 TPACKET_V3 0 [EvFrameTable (- 2 ^ 31) 16384]).
Proof.
  split.
  - apply (proj1 (alloc_rx_ring_frames_count quiet_bench ring8
                    (fresh_world TPACKET_V2))).
    vm_compute. split; [discriminate | reflexivity].
  - apply (proj2 (alloc_rx_ring_frames_count quiet_bench
                    (mk_ring 0 0 0 (mk_req 16384 (2 ^ 31) 2048 0 0 0 0))
                    (fresh_world TPACKET_V3))).
    vm_compute. split; [discriminate | reflexivity].
Defined.
